(** * djchat: the server listing endpoint

    A shallow embedding of [ServerListViewSet.list]
    (djchat/server/views.py) together with the part of the Django query
    interface the handler calls ([filter], [annotate], [exists], slicing),
    and the properties of the endpoint proved over it.

    Layout:
    - [Python]: truthiness of query parameters and the [int()] parser;
    - the exceptions of the handler and a small error monad;
    - [Orm]: the store, lazy querysets, their evaluation by the database
      and their result cache;
    - [ServerListViewSet]: the class attribute [queryset] and [list];
    - the properties. *)

From Stdlib Require Import ZArith List String Ascii Bool Lia Permutation.
Import ListNotations.
Local Open Scope string_scope.
Local Open Scope Z_scope.

(* ===================================================================== *)
(** * Python values the handler relies on *)
(* ===================================================================== *)

Module Python.

(** [if x:] for [x] the result of [query_params.get(..)]: [None] and the
    empty string are falsy, every other string is truthy. *)
Definition truthy (x : option string) : bool :=
  match x with
  | Some (String _ _) => true
  | _ => false
  end.

(** [query_params.get(key) == "true"]. *)
Definition eq_true (x : option string) : bool :=
  match x with
  | Some s => String.eqb s "true"
  | None => false
  end.

(** A [str] is modelled by a [string] whose characters stand for the
    code points below 256.  The characters [int()] strips from both ends
    are then TAB..CR, SPACE, NEL (133) and NBSP (160). *)
Definition is_space (c : ascii) : bool :=
  let n := N_of_ascii c in
  ((9 <=? n) && (n <=? 13) || (n =? 32) || (n =? 133) || (n =? 160))%N.

Definition is_digit (c : ascii) : bool :=
  let n := N_of_ascii c in ((48 <=? n) && (n <=? 57))%N.

Definition digit_value (c : ascii) : Z := Z.of_N (N_of_ascii c) - 48.

Fixpoint lstrip (s : string) : string :=
  match s with
  | String c s' => if is_space c then lstrip s' else s
  | EmptyString => EmptyString
  end.

(** [rstrip]: a trailing run of spaces is dropped. *)
Fixpoint rstrip (s : string) : string :=
  match s with
  | EmptyString => EmptyString
  | String c s' =>
      match rstrip s' with
      | EmptyString => if is_space c then EmptyString else String c EmptyString
      | r => String c r
      end
  end.

Definition strip (s : string) : string := rstrip (lstrip s).

(** Decimal digits, with single underscores allowed between two digits
    (PEP 515).  [prev] tells whether the previous character was a digit. *)
Fixpoint digits (acc : Z) (prev : bool) (s : string) : option Z :=
  match s with
  | EmptyString => if prev then Some acc else None
  | String c s' =>
      if is_digit c then digits (10 * acc + digit_value c) true s'
      else if Ascii.eqb c "_" then (if prev then digits acc false s' else None)
      else None
  end.

(** The number of digits of a literal, and the most that the
    interpreter converts (the default of [sys.get_int_max_str_digits]). *)
Fixpoint count_digits (s : string) : Z :=
  match s with
  | EmptyString => 0
  | String c s' => (if is_digit c then 1 else 0) + count_digits s'
  end.

Definition max_str_digits : Z := 4300.

(** [int(s)], base 10: surrounding whitespace, an optional sign, digits,
    no more of them than the interpreter converts.  [None] stands for
    the [ValueError] that [int] raises.  (Code points from 256 on are
    outside the model.) *)
Definition int (s : string) : option Z :=
  let r := strip s in
  if max_str_digits <? count_digits r then None
  else
    match r with
    | String "+" r' => digits 0 false r'
    | String "-" r' => option_map Z.opp (digits 0 false r')
    | _ => digits 0 false r
    end.

End Python.

(* ===================================================================== *)
(** * Exceptions and the error monad *)
(* ===================================================================== *)

(** The exceptions that can leave the handler.  The first two are the
    REST framework's API exceptions, which the framework turns into the
    401-class and 400-class responses.  The others are errors that
    nothing handles: [ValueError] is what [int()] and the id lookup
    raise on a malformed literal, [NegativeIndexing] is the error with
    which a queryset rejects a negative slice bound, [OverflowError] is
    raised by the database driver for a query parameter outside the
    64-bit integers, and [IntegrityError] by the database for a limit
    outside them. *)
Inductive exception : Type :=
| AuthenticationFailed
| ValidationError (detail : string)
| ValueError
| NegativeIndexing
| OverflowError
| IntegrityError.

(** An API exception becomes an error response; anything else is not
    handled and surfaces as a server fault. *)
Definition is_api_exception (e : exception) : bool :=
  match e with
  | AuthenticationFailed | ValidationError _ => true
  | ValueError | NegativeIndexing | OverflowError | IntegrityError => false
  end.

Definition unhandled (e : exception) : Prop := is_api_exception e = false.

(** Modelled from the spec: the translation of exceptions into
    responses belongs to the framework.  Authentication that is required
    and absent gives a 401 response, a validation error a 400 response;
    an exception that is not handled gives a server fault. *)
Definition status_code (e : exception) : Z :=
  match e with
  | AuthenticationFailed => 401
  | ValidationError _ => 400
  | ValueError | NegativeIndexing | OverflowError | IntegrityError => 500
  end.

Inductive result (A : Type) : Type :=
| Ok (a : A)
| Raise (e : exception).
Arguments Ok {A} a.
Arguments Raise {A} e.

Definition bind {A B : Type} (r : result A) (k : A -> result B) : result B :=
  match r with
  | Ok a => k a
  | Raise e => Raise e
  end.

Declare Scope result_scope.
Delimit Scope result_scope with result.
Notation "x <- r ;; k" := (bind r (fun x => k))
  (at level 61, r at next level, right associativity) : result_scope.
Local Open Scope result_scope.

(** [try: body except ValueError: handler]. *)
Definition try_except_ValueError {A : Type} (body handler : result A) : result A :=
  match body with
  | Raise ValueError => handler
  | r => r
  end.

(** [int(s)] as a computation that may raise. *)
Definition py_int (s : string) : result Z :=
  match Python.int s with
  | Some n => Ok n
  | None => Raise ValueError
  end.

(* ===================================================================== *)
(** * The store and the query interface *)
(* ===================================================================== *)

(** The part of the framework's query interface that the handler calls.
    A queryset is lazy: [filter], [annotate] and slicing only describe a
    query, on a fresh object each time; the store is read by [exists]
    and when the queryset is iterated.  The query is given its
    relational meaning: a [filter] on the membership relation joins the
    membership table, restricted to the user asked for, and an aggregate
    over the relation counts the rows of the join it finds.  The
    database is the one the project is set up with, whose integers have
    64 bits. *)
Module Orm.

Definition min_int64 : Z := -9223372036854775808.
Definition max_int64 : Z := 9223372036854775807.

Definition in_int64 (n : Z) : bool := (min_int64 <=? n) && (n <=? max_int64).

Record Category : Type := { category_name : string }.

(** Modelled from the spec: the [Server] model (djchat/server/models.py)
    is not part of the sources at hand.  A server has an identifier, a
    category reference, a membership relation over user ids and
    descriptive fields.  [member] lists the user ids of the rows of the
    membership relation that belong to the server. *)
Record Server : Type := {
  id : Z;
  name : string;
  owner : Z;
  category : Category;
  member : list Z
}.

(** The join of the membership table that an aggregate counts over; see
    [count_member]. *)
Inductive CountJoin : Type := ReusedJoin | OwnJoin.

(** The description of a lazy query.  The handler applies each lookup at
    most once, so the description keeps one slot for each of them. *)
Record Query : Type := {
  where_category : option string;   (* category.name = c *)
  where_member : option Z;          (* INNER JOIN membership, user_id = u *)
  where_id : option Z;              (* server.id = n *)
  annotation : option CountJoin;    (* num_members = COUNT(membership.user_id), GROUP BY server *)
  high_mark : option Z              (* LIMIT *)
}.

(** The store.  [servers] are the rows of the server table, in the
    order in which a scan of the table returns them; the identifiers
    that the table holds fit its integer column.  No query of the
    handler is ordered, so for a query that joins another table (the
    category table for a category name, the membership table for a
    member or for the count) the database is free to return the servers
    in the order of an index, of the rows of the other table, of the
    groups, or any other: [join_order] is the order that this database
    chooses for each such query, a rearrangement of the servers that
    the query selects. *)
Record Store : Type := {
  servers :> list Server;
  join_order : Query -> list Server -> list Server;
  join_order_permutes : forall q l, Permutation (join_order q l) l;
  ids_in_range : forallb (fun s => in_int64 (id s)) servers = true
}.

(** What the storage layer guarantees besides: the identifier is a
    primary key, and a user is related to a server at most once. *)
Definition primary_key (db : Store) : Prop := NoDup (map id db).
Definition unique_membership (db : Store) : Prop :=
  forall s, In s db -> NoDup (member s).

(** A model instance as a query returns it; [num_members] is the
    attribute that [annotate(num_members=...)] adds. *)
Record Row : Type := {
  instance : Server;
  num_members : option Z
}.

(** [Server.objects.all()]. *)
Definition all_query : Query :=
  {| where_category := None; where_member := None; where_id := None;
     annotation := None; high_mark := None |}.

(** The query without its limit. *)
Definition unlimited (q : Query) : Query :=
  {| where_category := where_category q; where_member := where_member q;
     where_id := where_id q; annotation := annotation q; high_mark := None |}.

Definition where_ok (q : Query) (s : Server) : bool :=
  match where_category q with
  | Some c => String.eqb (category_name (category s)) c
  | None => true
  end
  &&
  match where_id q with
  | Some n => Z.eqb (id s) n
  | None => true
  end.

(** Number of rows the joins of [filter] produce for one server: one per
    membership row of the filtered user, or just the server row when the
    membership table is not joined by a filter. *)
Definition join_rows (q : Query) (s : Server) : nat :=
  match where_member q with
  | Some u => count_occ Z.eq_dec (member s) u
  | None => 1%nat
  end.

(** The join of the membership table over which [Count("member")]
    aggregates, a [CountJoin].  The order of [filter] and [annotate]
    matters: an aggregate over a relation reuses the join that an
    earlier [filter] on that relation introduced, so that filter
    constrains the rows that are counted; when there is none, the
    aggregate joins the relation on its own (an outer join, so that a
    server without members counts 0); a later [filter] then joins the
    relation once more, which does not restrict the rows that are
    counted but repeats each of them for every row of that second
    join.  This is the value of [Count("member")] for the group of one
    server. *)
Definition count_member (q : Query) (j : CountJoin) (s : Server) : Z :=
  match j with
  | ReusedJoin => Z.of_nat (join_rows q s)
  | OwnJoin => Z.of_nat (List.length (member s) * join_rows q s)
  end.

Definition rows_of (q : Query) (s : Server) : list Row :=
  match annotation q with
  | None => repeat {| instance := s; num_members := None |} (join_rows q s)
  | Some j =>
      if Nat.eqb (join_rows q s) 0 then []
      else [ {| instance := s; num_members := Some (count_member q j s) |} ]
  end.

(** Whether a query reads another table besides the server table: the
    category table for the name of the category, the membership table
    for a member or for the count. *)
Definition joins (q : Query) : bool :=
  match where_category q, where_member q, annotation q with
  | None, None, None => false
  | _, _, _ => true
  end.

(** The servers that satisfy the conditions of a query, in the order in
    which the database visits them: the order of the table, or, when
    the query joins another table, the order that the database chooses
    for the query (the plan of a query is chosen without regard to its
    limit, which has no part in the order). *)
Definition scan (db : Store) (q : Query) : list Server :=
  let selected := List.filter (where_ok q) db in
  if joins q then join_order db (unlimited q) selected else selected.

(** The rows of a query, its limit left aside. *)
Definition select (db : Store) (q : Query) : list Row :=
  flat_map (rows_of q) (scan db q).

(** Passing the parameters of a query to the database: the driver
    refuses an integer outside 64 bits. *)
Definition bind_parameters (q : Query) : result unit :=
  match where_id q with
  | Some n => if in_int64 n then Ok tt else Raise OverflowError
  | None => Ok tt
  end.

(** Running the query against the store.  A query limited to no row at
    all is known to be empty and is not sent to the database.  Otherwise
    the parameters are bound, and the database rejects a limit that is
    not a 64-bit integer. *)
Definition execute (db : Store) (q : Query) : result (list Row) :=
  match high_mark q with
  | Some 0 => Ok []
  | Some n =>
      _ <- bind_parameters q ;;
      if max_int64 <? n then Raise IntegrityError
      else Ok (firstn (Z.to_nat n) (select db q))
  | None =>
      _ <- bind_parameters q ;;
      Ok (select db q)
  end.

(** A queryset object: a query and the cache of its results, filled the
    first time the object is iterated. *)
Record QuerySet : Type := {
  query : Query;
  result_cache : option (list Row)
}.

(** The keyword lookups the handler passes to [filter]. *)
Inductive Lookup : Type :=
| category__name (c : string)
| member_ (user_id : Z)
| id_ (value : string).

(** [qs.filter(lookup)].  The value of an [id] lookup is converted with
    [int], and a malformed one raises [ValueError] here, when the lookup
    is built. *)
Definition filter (l : Lookup) (qs : QuerySet) : result QuerySet :=
  let q := query qs in
  match l with
  | category__name c =>
      Ok {| query := {| where_category := Some c; where_member := where_member q;
                        where_id := where_id q; annotation := annotation q;
                        high_mark := high_mark q |};
            result_cache := None |}
  | member_ u =>
      Ok {| query := {| where_category := where_category q; where_member := Some u;
                        where_id := where_id q; annotation := annotation q;
                        high_mark := high_mark q |};
            result_cache := None |}
  | id_ v =>
      n <- py_int v ;;
      Ok {| query := {| where_category := where_category q; where_member := where_member q;
                        where_id := Some n; annotation := annotation q;
                        high_mark := high_mark q |};
            result_cache := None |}
  end.

(** [qs.annotate(num_members=Count("member"))]. *)
Definition annotate_num_members (qs : QuerySet) : QuerySet :=
  let q := query qs in
  {| query := {| where_category := where_category q; where_member := where_member q;
                 where_id := where_id q;
                 annotation := Some (match where_member q with
                                     | Some _ => ReusedJoin
                                     | None => OwnJoin
                                     end);
                 high_mark := high_mark q |};
     result_cache := None |}.

Definition non_empty_list {A : Type} (l : list A) : bool :=
  negb (Nat.eqb (List.length l) 0).

(** [qs.exists()]: answered from the results when the object has them,
    by a query for one row otherwise. *)
Definition exists_ (db : Store) (qs : QuerySet) : result bool :=
  match result_cache qs with
  | Some rows => Ok (non_empty_list rows)
  | None =>
      match high_mark (query qs) with
      | Some 0 => Ok false
      | _ =>
          _ <- bind_parameters (query qs) ;;
          Ok (non_empty_list (select db (query qs)))
      end
  end.

(** What [qs[:n]] evaluates to, and what a serializer can iterate. *)
Inductive Iterable : Type :=
| OfQuerySet (qs : QuerySet)
| OfList (rows : list Row).

(** [qs[:n]]: a negative bound is rejected; an evaluated queryset slices
    its cached results into a list, which takes any bound; otherwise a
    clone carries the bound as the limit of its query, to be met by the
    database when the clone is iterated. *)
Definition getitem_stop (n : Z) (qs : QuerySet) : result Iterable :=
  if n <? 0 then Raise NegativeIndexing
  else
    match result_cache qs with
    | Some rows => Ok (OfList (firstn (Z.to_nat n) rows))
    | None =>
        let q := query qs in
        let stop := match high_mark q with
                    | Some h => Z.min h n
                    | None => n
                    end in
        Ok (OfQuerySet
              {| query := {| where_category := where_category q;
                             where_member := where_member q;
                             where_id := where_id q; annotation := annotation q;
                             high_mark := Some stop |};
                 result_cache := None |})
    end.

(** Iterating a queryset: the results are fetched once and kept in the
    object.  Returns the rows and the object afterwards. *)
Definition fetch_all (db : Store) (qs : QuerySet)
  : result (list Row * QuerySet) :=
  match result_cache qs with
  | Some rows => Ok (rows, qs)
  | None =>
      rows <- execute db (query qs) ;;
      Ok (rows, {| query := query qs; result_cache := Some rows |})
  end.

End Orm.

(* ===================================================================== *)
(** * The request and the serializer *)
(* ===================================================================== *)

(** [request.user]: the anonymous user, or an authenticated user with
    its id, the key of a stored user. *)
Inductive User : Type :=
| AnonymousUser
| AuthenticatedUser (user_id : Z).

Definition is_authenticated (u : User) : bool :=
  match u with
  | AnonymousUser => false
  | AuthenticatedUser _ => true
  end.

(** [request.query_params]: the pairs of the query string, in the order
    in which they were sent. *)
Definition QueryDict : Type := list (string * string).

(** [query_params.get(key)]: the last value sent for the key, [None]
    when the key was not supplied. *)
Fixpoint get (qd : QueryDict) (key : string) : option string :=
  match qd with
  | [] => None
  | (k, v) :: rest =>
      match get rest key with
      | Some v' => Some v'
      | None => if String.eqb k key then Some v else None
      end
  end.

Record Request : Type := {
  query_params : QueryDict;
  user : User
}.

(** One object of the response body. *)
Record ServerObject : Type := {
  server : Orm.Server;
  obj_num_members : option Z
}.

Definition Response : Type := list ServerObject.

(** Modelled from the spec: the serializer (djchat/server/serializer.py)
    is not part of the sources at hand.  It translates each row into an
    output object with the base fields of the server and, when the
    context flag asks for it, the member count the row carries. *)
Definition ServerSerializer (rows : list Orm.Row) (context_num_members : bool)
  : Response :=
  map (fun r => {| server := Orm.instance r;
                   obj_num_members :=
                     if context_num_members then Orm.num_members r else None |})
      rows.

(* ===================================================================== *)
(** * The view *)
(* ===================================================================== *)

Module ServerListViewSet.
Import Orm.

(** The class attribute [queryset = Server.objects.all()].  The object
    is created once and shared by all requests; what changes over time
    is its result cache, [None] until the object is iterated for the
    first time. *)
Definition queryset (cache : option (Datatypes.list Row)) : QuerySet :=
  {| query := all_query; result_cache := cache |}.

(** Reading [self.queryset]: the attribute of the instance when one was
    assigned, the object of the class otherwise. *)
Definition getattr_queryset (cls : QuerySet) (self : option QuerySet) : QuerySet :=
  match self with
  | Some qs => qs
  | None => cls
  end.

Definition value (x : option string) : string :=
  match x with
  | Some s => s
  | None => EmptyString
  end.

(** Lines 78-116 of the handler, the filters: what [self.queryset] is
    bound to after them ([None]: no attribute was assigned, it still is
    the object of the class), or the exception raised on the way.
    [cache] is the result cache of the class attribute when the request
    arrives. *)
Definition apply_filters (db : Store) (cache : option (Datatypes.list Row))
  (request : Request) : result (option QuerySet) :=
  let cls := queryset cache in
  let category := get (query_params request) "category" in
  let by_user := Python.eq_true (get (query_params request) "by_user") in
  let by_serverid := get (query_params request) "by_serverid" in
  let with_num_members :=
    Python.eq_true (get (query_params request) "with_num_members") in
  let self : option QuerySet := None in
  (* Filter servers by category *)
  self <- (if Python.truthy category then
             qs <- filter (category__name (value category)) (getattr_queryset cls self) ;;
             Ok (Some qs)
           else Ok self) ;;
  (* Filter server by user *)
  self <- (if by_user then
             match by_user, user request with
             | true, AuthenticatedUser user_id =>
                 qs <- filter (member_ user_id) (getattr_queryset cls self) ;;
                 Ok (Some qs)
             | _, _ => Raise AuthenticationFailed
             end
           else Ok self) ;;
  (* serialize including number of server members *)
  self <- (if with_num_members then
             Ok (Some (annotate_num_members (getattr_queryset cls self)))
           else Ok self) ;;
  (* Filter and validate by server id *)
  if Python.truthy by_serverid then
    if negb (is_authenticated (user request)) then Raise AuthenticationFailed
    else
      try_except_ValueError
        (qs <- filter (id_ (value by_serverid)) (getattr_queryset cls self) ;;
         found <- exists_ db qs ;;
         if negb found then
           Raise (ValidationError
                    ("Could not find server with ID " ++ value by_serverid))
         else Ok (Some qs))
        (Raise (ValidationError "Server value error"))
  else Ok self.

(** Lines 118-120, the quantity restriction, applied to what the filters
    left in [self.queryset]. *)
Definition apply_qty (cache : option (Datatypes.list Row)) (request : Request)
  (self : option QuerySet) : result (option Iterable) :=
  let cls := queryset cache in
  let qty := get (query_params request) "qty" in
  if Python.truthy qty then
    n <- py_int (value qty) ;;
    it <- getitem_stop n (getattr_queryset cls self) ;;
    Ok (Some it)
  else Ok (option_map OfQuerySet self).

(** [ServerListViewSet.list]: the outcome of the request and the result
    cache of the class attribute afterwards.  Serializing iterates
    [self.queryset], which is when a queryset that was not evaluated
    yet is run; when [self.queryset] still is the object of the class,
    the rows fetched stay cached in it. *)
Definition list (db : Store) (cache : option (Datatypes.list Row))
  (request : Request) : result Response * option (Datatypes.list Row) :=
  let with_num_members :=
    Python.eq_true (get (query_params request) "with_num_members") in
  match (self <- apply_filters db cache request ;; apply_qty cache request self) with
  | Raise e => (Raise e, cache)
  | Ok None =>
      match fetch_all db (queryset cache) with
      | Ok (rows, cls) =>
          (Ok (ServerSerializer rows with_num_members), result_cache cls)
      | Raise e => (Raise e, cache)
      end
  | Ok (Some (OfQuerySet qs)) =>
      match fetch_all db qs with
      | Ok (rows, _) => (Ok (ServerSerializer rows with_num_members), cache)
      | Raise e => (Raise e, cache)
      end
  | Ok (Some (OfList rows)) =>
      (Ok (ServerSerializer rows with_num_members), cache)
  end.

End ServerListViewSet.

(* ===================================================================== *)
(** * Vocabulary of the properties *)
(* ===================================================================== *)

Import Orm.

(** The request with every pair of one key taken out of the query
    string. *)
Definition remove_key (key : string) (qd : QueryDict) : QueryDict :=
  List.filter (fun kv => negb (String.eqb (fst kv) key)) qd.

Definition without_qty (request : Request) : Request :=
  {| query_params := remove_key "qty" (query_params request);
     user := user request |}.

(** The category filter of a request, as a predicate on servers: no
    restriction when [category] is absent or empty. *)
Definition category_matches (c : option string) (s : Server) : bool :=
  if Python.truthy c
  then String.eqb (category_name (category s)) (ServerListViewSet.value c)
  else true.

(** A server is kept out by the filters that precede the id lookup: by
    the category filter, or by [by_user=true] when the user is not a
    member. *)
Definition excluded_by_earlier_filter (request : Request) (uid : Z) (s : Server)
  : Prop :=
  category_matches (get (query_params request) "category") s = false
  \/ (get (query_params request) "by_user" = Some "true" /\ ~ In uid (member s)).

(** The result cache of the class attribute agrees with the store: the
    object was never iterated, or the rows it keeps are the rows the
    store holds now. *)
Definition cache_current (db : Store) (cache : option (list Row)) : Prop :=
  match cache with
  | None => True
  | Some rows => rows = select db all_query
  end.

(** The listing of a table of servers without by_user and by_serverid:
    the servers of the category, each with its number of members when
    asked for. *)
Definition plain_listing (db : list Server) (c : option string) (counts : bool)
  : Response :=
  map (fun s => {| server := s;
                   obj_num_members :=
                     if counts then Some (Z.of_nat (List.length (member s)))
                     else None |})
      (List.filter (category_matches c) db).

(** [qty] applied to a listing: nothing when absent or empty, the first
    [n] objects for a literal of [n]. *)
Definition truncated (q : option string) (l : Response) : Response :=
  if Python.truthy q then
    match Python.int (ServerListViewSet.value q) with
    | Some n => firstn (Z.to_nat n) l
    | None => l
    end
  else l.

(** The query that the filters of a request describe, and whether they
    assign [self.queryset] at all. *)
Definition user_pk (u : User) : option Z :=
  match u with
  | AnonymousUser => None
  | AuthenticatedUser uid => Some uid
  end.

Definition filters_query (request : Request) : Query :=
  let qd := query_params request in
  {| where_category :=
       if Python.truthy (get qd "category")
       then Some (ServerListViewSet.value (get qd "category")) else None;
     where_member :=
       if Python.eq_true (get qd "by_user") then user_pk (user request) else None;
     where_id :=
       if Python.truthy (get qd "by_serverid")
       then Python.int (ServerListViewSet.value (get qd "by_serverid")) else None;
     annotation :=
       if Python.eq_true (get qd "with_num_members")
       then Some (if Python.eq_true (get qd "by_user") then ReusedJoin else OwnJoin)
       else None;
     high_mark := None |}.

Definition assigns (request : Request) : bool :=
  let qd := query_params request in
  Python.truthy (get qd "category") || Python.eq_true (get qd "by_user")
  || Python.eq_true (get qd "with_num_members")
  || Python.truthy (get qd "by_serverid").

(** ** Vocabulary of the further properties *)

(** The row of a query for one server: the instance and, for an
    annotated query, its count. *)
Definition row_of (q : Query) (s : Server) : Row :=
  {| instance := s;
     num_members := option_map (fun j => count_member q j s) (annotation q) |}.

(** The servers that the membership join of a query keeps. *)
Definition joined (q : Query) (s : Server) : bool :=
  negb (Nat.eqb (join_rows q s) 0).

(** The servers that a query visits and joins, in the order of its
    rows: a rearrangement of the servers of the store that have a row,
    and these in the order of the store when the query does not join
    another table. *)
Definition visited (db : Store) (q : Query) : list Server :=
  List.filter (joined q) (scan db q).

(** The servers for which a query has a row. *)
Definition has_row (q : Query) (s : Server) : bool :=
  where_ok q s && negb (Nat.eqb (join_rows q s) 0).

Definition is_member (uid : Z) (s : Server) : bool :=
  if in_dec Z.eq_dec uid (member s) then true else false.

(** The servers that the parameters of a request select: those of the
    category when a non-empty one is sent, of which the identity is a
    member when by_user is true, with the id sent when by_serverid is
    not empty. *)
Definition selects (request : Request) (s : Server) : bool :=
  let qd := query_params request in
  category_matches (get qd "category") s
  && (if Python.eq_true (get qd "by_user")
      then match user request with
           | AuthenticatedUser uid => is_member uid s
           | AnonymousUser => false
           end
      else true)
  && (if Python.truthy (get qd "by_serverid")
      then match Python.int (ServerListViewSet.value (get qd "by_serverid")) with
           | Some n => Z.eqb (id s) n
           | None => false
           end
      else true).

(** The object that a successful request returns for a server: with
    with_num_members=true it carries the number of members, or 1 when
    by_user=true restricted the join that is counted. *)
Definition object_of (request : Request) (s : Server) : ServerObject :=
  let qd := query_params request in
  {| server := s;
     obj_num_members :=
       if Python.eq_true (get qd "with_num_members")
       then Some (if Python.eq_true (get qd "by_user") then 1
                  else Z.of_nat (List.length (member s)))
       else None |}.

(** [qty] applied to any list, as [truncated] applies it to a response. *)
Definition take_qty {A : Type} (q : option string) (l : list A) : list A :=
  if Python.truthy q then
    match Python.int (ServerListViewSet.value q) with
    | Some n => firstn (Z.to_nat n) l
    | None => l
    end
  else l.

(** What the handler reads of a query string: the category, by_serverid
    and qty that are not empty, and whether by_user and with_num_members
    are the string true. *)
Definition non_empty (x : option string) : option string :=
  if Python.truthy x then x else None.

Definition effective (qd : QueryDict)
  : option string * bool * bool * option string * option string :=
  (non_empty (get qd "category"),
   Python.eq_true (get qd "by_user"),
   Python.eq_true (get qd "with_num_members"),
   non_empty (get qd "by_serverid"),
   non_empty (get qd "qty")).

(** The rows that a queryset object stands for, the limit of its query
    left aside: the rows it has cached, or the rows of its query. *)
Definition results (db : Store) (qs : QuerySet) : list Row :=
  match result_cache qs with
  | Some rows => rows
  | None => select db (query qs)
  end.

(** The request is answered from the rows that the class attribute has
    cached: no filter assigns [self.queryset] and the class object has
    been iterated. *)
Definition from_cache (cache : option (list Row)) (request : Request) : bool :=
  negb (assigns request) && match cache with Some _ => true | None => false end.

(** The bound that qty sets is one the handler can serve: none, or a
    literal of an integer that is not negative and that either fits the
    limit of a query or slices the rows that the class attribute has
    cached. *)
Definition qty_served (cache : option (list Row)) (request : Request) : Prop :=
  Python.truthy (get (query_params request) "qty") = true ->
  exists n,
    Python.int (ServerListViewSet.value (get (query_params request) "qty"))
    = Some n
    /\ 0 <= n /\ (n <= max_int64 \/ from_cache cache request = true).

(** ** Sample data *)

Definition gaming : Category := {| category_name := "gaming" |}.
Definition music : Category := {| category_name := "music" |}.

Definition lobby : Server :=
  {| id := 1; name := "lobby"; owner := 1; category := gaming; member := [1; 2] |}.
Definition studio : Server :=
  {| id := 2; name := "studio"; owner := 2; category := music; member := [2] |}.

(** A store holding the two servers, one holding only the first, and
    one holding the two whose joins come in the reverse order of the
    table. *)
Definition sample_db : Store :=
  {| servers := [lobby; studio];
     join_order := fun _ l => l;
     join_order_permutes := fun _ l => Permutation_refl l;
     ids_in_range := eq_refl |}.

Definition old_db : Store :=
  {| servers := [lobby];
     join_order := fun _ l => l;
     join_order_permutes := fun _ l => Permutation_refl l;
     ids_in_range := eq_refl |}.

Definition reversing_db : Store :=
  {| servers := [lobby; studio];
     join_order := fun _ l => rev l;
     join_order_permutes := fun _ l => Permutation_sym (Permutation_rev l);
     ids_in_range := eq_refl |}.

Definition request_of (u : User) (qd : QueryDict) : Request :=
  {| query_params := qd; user := u |}.

(* ===================================================================== *)
(** * Query parameters *)
(* ===================================================================== *)

Lemma get_remove_key_same (key : string) (qd : QueryDict) :
  get (remove_key key qd) key = None.
Proof.
  induction qd as [|[k v] qd IH]; simpl; [reflexivity|].
  destruct (String.eqb k key) eqn:E; simpl; [assumption|].
  now rewrite IH, E.
Qed.

Lemma get_remove_key_other (key key' : string) (qd : QueryDict) :
  key' <> key -> get (remove_key key qd) key' = get qd key'.
Proof.
  intros Hne.
  induction qd as [|[k v] qd IH]; simpl; [reflexivity|].
  destruct (String.eqb k key) eqn:E; simpl.
  - apply String.eqb_eq in E; subst k.
    rewrite IH.
    destruct (String.eqb key key') eqn:E'.
    + apply String.eqb_eq in E'. congruence.
    + now destruct (get qd key').
  - now rewrite IH.
Qed.

Lemma truthy_value (x : option string) :
  Python.truthy x = true -> x = Some (ServerListViewSet.value x).
Proof. destruct x as [[|c s]|]; simpl; intros H; congruence. Qed.

Lemma truthy_Some (s : string) :
  s <> EmptyString -> Python.truthy (Some s) = true.
Proof. destruct s; simpl; congruence. Qed.

Lemma int_nonempty (s : string) (n : Z) :
  Python.int s = Some n -> s <> EmptyString.
Proof. intros H ->. discriminate H. Qed.

Lemma py_int_Some (s : string) (n : Z) :
  Python.int s = Some n -> py_int s = Ok n.
Proof. unfold py_int. now intros ->. Qed.

Lemma py_int_None (s : string) :
  Python.int s = None -> py_int s = Raise ValueError.
Proof. unfold py_int. now intros ->. Qed.

Lemma eq_true_Some_true : Python.eq_true (Some "true") = true.
Proof. reflexivity. Qed.

(* ===================================================================== *)
(** * Authentication *)
(* ===================================================================== *)

(** C1, as amended: a request that carries by_user=true or a non-empty
    by_serverid and comes from an identity that is not authenticated
    fails with the authentication error; no list is returned and the
    class attribute is left as it was. *)
Theorem authentication_required (db : Store) (cache : option (list Row))
  (request : Request) :
  is_authenticated (user request) = false ->
  get (query_params request) "by_user" = Some "true"
  \/ Python.truthy (get (query_params request) "by_serverid") = true ->
  ServerListViewSet.list db cache request = (Raise AuthenticationFailed, cache).
Proof.
  intros Hanon Hsupplied.
  destruct request as [qd u]; simpl in *.
  destruct u as [|uid]; [clear Hanon|discriminate].
  unfold ServerListViewSet.list, ServerListViewSet.apply_filters; simpl.
  destruct Hsupplied as [Hu|Hs].
  - rewrite Hu; simpl.
    now destruct (Python.truthy (get qd "category")).
  - rewrite Hs; simpl.
    destruct (Python.truthy (get qd "category"));
      destruct (Python.eq_true (get qd "by_user")); simpl; try reflexivity;
      now destruct (Python.eq_true (get qd "with_num_members")).
Qed.

Lemma authentication_required_witness :
  ServerListViewSet.list sample_db None
    (request_of AnonymousUser [("by_serverid", "1")])
  = (Raise AuthenticationFailed, None).
Proof.
  apply (authentication_required sample_db None
           (request_of AnonymousUser [("by_serverid", "1")])).
  - reflexivity.
  - right. reflexivity.
Defined.

(** C1, as stated, fails: by_user and by_serverid are both supplied, the
    identity is anonymous, and the handler answers with the whole list:
    by_user counts only when it is the string true, by_serverid only
    when it is not empty. *)
Lemma supplied_flags_without_authentication :
  let request := request_of AnonymousUser [("by_user", "false"); ("by_serverid", "")] in
  get (query_params request) "by_user" <> None
  /\ get (query_params request) "by_serverid" <> None
  /\ is_authenticated (user request) = false
  /\ fst (ServerListViewSet.list sample_db None request)
     = Ok (plain_listing sample_db None false).
Proof.
  simpl. repeat split; try discriminate; reflexivity.
Qed.

(* ===================================================================== *)
(** * Evaluation of queries *)
(* ===================================================================== *)

Lemma In_firstn {A : Type} (n : nat) (l : list A) (x : A) :
  In x (firstn n l) -> In x l.
Proof.
  intros H. rewrite <- (firstn_skipn n l). apply in_or_app. now left.
Qed.

Lemma store_id_in_range (db : Store) (s : Server) :
  In s db -> in_int64 (id s) = true.
Proof.
  intros H. exact (proj1 (forallb_forall _ _) (ids_in_range db) s H).
Qed.

Lemma In_scan (db : Store) (q : Query) (s : Server) :
  In s (scan db q) <-> In s db /\ where_ok q s = true.
Proof.
  unfold scan. rewrite <- filter_In.
  destruct (joins q); [|reflexivity].
  split; apply Permutation_in;
    [|apply Permutation_sym]; apply join_order_permutes.
Qed.

Lemma rows_of_instance (q : Query) (s : Server) (r : Row) :
  In r (rows_of q s) -> instance r = s /\ join_rows q s <> 0%nat.
Proof.
  unfold rows_of.
  destruct (annotation q) as [j|].
  - destruct (Nat.eqb_spec (join_rows q s) 0) as [E|E]; simpl; [tauto|].
    intros [<-|[]]. now split.
  - intros H. apply repeat_spec in H as Hr. subst r. split; [reflexivity|].
    intros E. now rewrite E in H.
Qed.

Lemma In_select (db : Store) (q : Query) (r : Row) :
  In r (select db q) ->
  In (instance r) db /\ where_ok q (instance r) = true
  /\ join_rows q (instance r) <> 0%nat.
Proof.
  unfold select. intros H.
  apply in_flat_map in H as (s & Hs & Hr).
  apply In_scan in Hs as [Hdb Hok].
  apply rows_of_instance in Hr as [-> Hj]. auto.
Qed.

Lemma select_complete (db : Store) (q : Query) (s : Server) :
  In s db -> where_ok q s = true -> join_rows q s <> 0%nat ->
  exists r, In r (select db q) /\ instance r = s.
Proof.
  intros Hdb Hok Hj. unfold select.
  assert (Hrows : exists r, In r (rows_of q s) /\ instance r = s).
  { unfold rows_of. destruct (annotation q) as [j|].
    - apply Nat.eqb_neq in Hj. rewrite Hj. eexists; split; [left; reflexivity|reflexivity].
    - destruct (join_rows q s) as [|k]; [congruence|].
      eexists; split; [left; reflexivity|reflexivity]. }
  destruct Hrows as (r & Hr & Hi).
  exists r; split; [|assumption].
  apply in_flat_map. exists s; split; [|assumption].
  apply In_scan; auto.
Qed.

Lemma select_nil (db : Store) (q : Query) :
  (forall s, In s db -> where_ok q s = true -> join_rows q s = 0%nat) ->
  select db q = [].
Proof.
  intros H.
  destruct (select db q) as [|r rows] eqn:E; [reflexivity|].
  assert (Hr : In r (select db q)) by (rewrite E; now left).
  apply In_select in Hr as (Hdb & Hok & Hj).
  now specialize (H _ Hdb Hok).
Qed.

(** A query for an id that no server has, or that only servers without
    a row have, does not exist when its id fits the column. *)
Lemma exists_false (db : Store) (qs : QuerySet) :
  result_cache qs = None ->
  bind_parameters (query qs) = Ok tt ->
  (forall s, In s db -> where_ok (query qs) s = true ->
             join_rows (query qs) s = 0%nat) ->
  exists_ db qs = Ok false.
Proof.
  intros Hc Hp H. unfold exists_. rewrite Hc.
  destruct (high_mark (query qs)) as [[|h|h]|]; [reflexivity| | |];
    now rewrite Hp, (select_nil _ _ H).
Qed.

Lemma primary_key_unique (db : Store) (s s' : Server) :
  primary_key db -> In s db -> In s' db -> id s = id s' -> s = s'.
Proof.
  unfold primary_key.
  induction (servers db) as [|x l IH]; simpl; [tauto|].
  intros Hnd Hs Hs' E. inversion Hnd as [|? ? Hnotin Hnd']; subst.
  destruct Hs as [->|Hs], Hs' as [->|Hs']; auto.
  - exfalso. apply Hnotin. rewrite E. now apply in_map.
  - exfalso. apply Hnotin. rewrite <- E. now apply in_map.
Qed.

(* ===================================================================== *)
(** * The id lookup *)
(* ===================================================================== *)

(** Case analysis on the three conditions that precede the id lookup
    (category, by_user, with_num_members) for an authenticated user. *)
Ltac earlier_filters qd :=
  destruct (Python.truthy (get qd "category")) eqn:Hcategory;
  destruct (Python.eq_true (get qd "by_user")) eqn:Hby_user;
  destruct (Python.eq_true (get qd "with_num_members")) eqn:Hcounts;
  cbn [bind ServerListViewSet.getattr_queryset filter annotate_num_members
       ServerListViewSet.queryset query where_category where_member where_id
       annotation high_mark result_cache is_authenticated negb].

(** C4, as amended: for a request whose by_serverid is not empty and is
    not an integer literal, the handler fails with the validation error
    of the malformed id, a 400 response, and with no other error, when
    the identity is authenticated; without authentication the same
    request fails with the authentication error. *)
Theorem malformed_serverid_is_validation_error (db : Store)
  (cache : option (list Row)) (qd : QueryDict) (s : string) :
  get qd "by_serverid" = Some s ->
  s <> EmptyString ->
  Python.int s = None ->
  (forall uid,
     ServerListViewSet.list db cache
       {| query_params := qd; user := AuthenticatedUser uid |}
     = (Raise (ValidationError "Server value error"), cache))
  /\ status_code (ValidationError "Server value error") = 400
  /\ ServerListViewSet.list db cache
       {| query_params := qd; user := AnonymousUser |}
     = (Raise AuthenticationFailed, cache).
Proof.
  intros Hs Hne Hint.
  split; [intros uid|split; [reflexivity|]];
    unfold ServerListViewSet.list, ServerListViewSet.apply_filters; simpl;
    rewrite Hs, (truthy_Some s Hne).
  - unfold ServerListViewSet.value, py_int.
    earlier_filters qd; rewrite Hint; reflexivity.
  - earlier_filters qd; reflexivity.
Qed.

Lemma malformed_serverid_is_validation_error_witness :
  (forall uid,
     ServerListViewSet.list sample_db None
       {| query_params := [("by_serverid", "abc")];
          user := AuthenticatedUser uid |}
     = (Raise (ValidationError "Server value error"), None))
  /\ status_code (ValidationError "Server value error") = 400
  /\ ServerListViewSet.list sample_db None
       {| query_params := [("by_serverid", "abc")]; user := AnonymousUser |}
     = (Raise AuthenticationFailed, None).
Proof.
  apply (malformed_serverid_is_validation_error sample_db None
           [("by_serverid", "abc")] "abc").
  - reflexivity.
  - discriminate.
  - reflexivity.
Defined.

(** C4, as stated, fails: a malformed by_serverid sent without
    authentication is answered with the authentication error, and an
    empty by_serverid is ignored. *)
Lemma malformed_serverid_other_outcomes :
  Python.int "abc" = None
  /\ fst (ServerListViewSet.list sample_db None
            (request_of AnonymousUser [("by_serverid", "abc")]))
     = Raise AuthenticationFailed
  /\ status_code AuthenticationFailed = 401
  /\ Python.int "" = None
  /\ fst (ServerListViewSet.list sample_db None
            (request_of (AuthenticatedUser 1) [("by_serverid", "")]))
     = Ok (plain_listing sample_db None false).
Proof.
  repeat split; reflexivity.
Qed.

Lemma where_ok_id (q : Query) (n : Z) (s : Server) :
  where_id q = Some n -> where_ok q s = true -> id s = n.
Proof.
  unfold where_ok. intros ->. intros H.
  apply andb_true_iff in H as [_ H]. now apply Z.eqb_eq.
Qed.

Lemma where_ok_category (q : Query) (c : string) (s : Server) :
  where_category q = Some c -> where_ok q s = true ->
  String.eqb (category_name (category s)) c = true.
Proof.
  unfold where_ok. intros ->. intros H.
  now apply andb_true_iff in H as [H _].
Qed.

Lemma join_rows_member (q : Query) (u : Z) (s : Server) :
  where_member q = Some u -> (join_rows q s <> 0%nat <-> In u (member s)).
Proof.
  unfold join_rows. intros ->. rewrite (count_occ_In Z.eq_dec). lia.
Qed.

Lemma bind_parameters_id (q : Query) (n : Z) :
  where_id q = Some n -> in_int64 n = true -> bind_parameters q = Ok tt.
Proof. unfold bind_parameters. now intros -> ->. Qed.

(** C5, as amended: for a request of an authenticated identity whose
    by_serverid is an integer literal of an id that fits the 64-bit id
    column and that no server of the store has, the handler fails with
    the validation error whose message ends with the by_serverid that
    was sent. *)
Theorem unknown_serverid_is_validation_error (db : Store)
  (cache : option (list Row)) (request : Request) (uid : Z) (s : string) (n : Z) :
  user request = AuthenticatedUser uid ->
  get (query_params request) "by_serverid" = Some s ->
  Python.int s = Some n ->
  in_int64 n = true ->
  (forall srv, In srv db -> id srv <> n) ->
  ServerListViewSet.list db cache request
  = (Raise (ValidationError ("Could not find server with ID " ++ s)), cache).
Proof.
  intros Hu Hs Hint Hrange Hnone.
  destruct request as [qd u]; simpl in *; subst u.
  unfold ServerListViewSet.list, ServerListViewSet.apply_filters; simpl.
  rewrite Hs, (truthy_Some s (int_nonempty s n Hint)).
  unfold ServerListViewSet.value, py_int.
  earlier_filters qd; rewrite Hint;
    cbn [bind try_except_ValueError];
    (rewrite exists_false;
     [reflexivity | reflexivity
     | now apply (bind_parameters_id _ n)
     | intros srv Hdb Hok; exfalso; apply (Hnone srv Hdb);
       eapply where_ok_id; [|eassumption]; reflexivity]).
Qed.

Lemma unknown_serverid_is_validation_error_witness :
  ServerListViewSet.list sample_db None
    (request_of (AuthenticatedUser 1) [("by_serverid", "7")])
  = (Raise (ValidationError "Could not find server with ID 7"), None).
Proof.
  apply (unknown_serverid_is_validation_error sample_db None
           (request_of (AuthenticatedUser 1) [("by_serverid", "7")]) 1 "7" 7).
  - reflexivity.
  - reflexivity.
  - reflexivity.
  - reflexivity.
  - intros srv [<-|[<-|[]]]; discriminate.
Defined.

(** C5, as stated, fails: the same by_serverid sent without
    authentication is answered with the authentication error; and an
    authenticated request for an id beyond the 64-bit integers gets no
    validation error, the driver raises when the existence check binds
    the id. *)
Lemma unknown_serverid_other_outcomes :
  Python.int "7" = Some 7
  /\ (forall srv, In srv sample_db -> id srv <> 7)
  /\ fst (ServerListViewSet.list sample_db None
            (request_of AnonymousUser [("by_serverid", "7")]))
     = Raise AuthenticationFailed
  /\ Python.int "9223372036854775808" = Some 9223372036854775808
  /\ (forall srv, In srv sample_db -> id srv <> 9223372036854775808)
  /\ fst (ServerListViewSet.list sample_db None
            (request_of (AuthenticatedUser 1)
               [("by_serverid", "9223372036854775808")]))
     = Raise OverflowError.
Proof.
  split; [reflexivity|]. split; [intros srv [<-|[<-|[]]]; discriminate|].
  split; [reflexivity|]. split; [reflexivity|].
  split; [intros srv [<-|[<-|[]]]; discriminate|reflexivity].
Qed.

(** C9: for a request of an authenticated identity whose by_serverid
    names a server of the store that an earlier filter keeps out (its
    category differs from the one asked for, or by_user=true and the
    identity is not among its members), the handler fails with the
    validation error "Could not find server with ID <by_serverid>"; it
    does not answer with an empty list. *)
Theorem serverid_checked_against_filtered_set (db : Store)
  (cache : option (list Row)) (request : Request) (uid : Z) (s : string)
  (n : Z) (srv : Server) :
  primary_key db ->
  user request = AuthenticatedUser uid ->
  get (query_params request) "by_serverid" = Some s ->
  Python.int s = Some n ->
  In srv db -> id srv = n ->
  excluded_by_earlier_filter request uid srv ->
  ServerListViewSet.list db cache request
  = (Raise (ValidationError ("Could not find server with ID " ++ s)), cache).
Proof.
  intros Hpk Hu Hs Hint Hdb Hid Hex.
  assert (Hrange : in_int64 n = true)
    by (rewrite <- Hid; now apply (store_id_in_range db)).
  destruct request as [qd u]; unfold excluded_by_earlier_filter in Hex;
    simpl in *; subst u.
  unfold ServerListViewSet.list, ServerListViewSet.apply_filters; simpl.
  rewrite Hs, (truthy_Some s (int_nonempty s n Hint)).
  assert (Hby : get qd "by_user" = Some "true" -> 
                Python.eq_true (get qd "by_user") = true) by (now intros ->).
  unfold category_matches in Hex.
  unfold ServerListViewSet.value at 2 3, py_int.
  earlier_filters qd; rewrite Hint;
    cbn [bind try_except_ValueError];
    (rewrite exists_false;
     [reflexivity | reflexivity | now apply (bind_parameters_id _ n) |]);
    intros srv' Hdb' Hok;
    assert (srv' = srv)
      by (apply (primary_key_unique db); auto; rewrite Hid;
          eapply where_ok_id; [|eassumption]; reflexivity);
        subst srv'.
  all: destruct Hex as [Hc|[Htrue Hnot]].
  all: try discriminate Hc.
  all: try (specialize (Hby Htrue); discriminate Hby).
  all: try (exfalso; eapply where_ok_category in Hok; [|reflexivity];
            congruence).
  all: match goal with
       | |- ?rows = 0%nat => destruct (Nat.eq_dec rows 0) as [E|E]
       end; [exact E|].
  all: exfalso; apply Hnot; eapply join_rows_member; [|exact E]; reflexivity.
Qed.

Lemma serverid_checked_against_filtered_set_witness :
  ServerListViewSet.list sample_db None
    (request_of (AuthenticatedUser 1) [("by_user", "true"); ("by_serverid", "2")])
  = (Raise (ValidationError "Could not find server with ID 2"), None).
Proof.
  apply (serverid_checked_against_filtered_set sample_db None
           (request_of (AuthenticatedUser 1)
              [("by_user", "true"); ("by_serverid", "2")])
           1 "2" 2 studio).
  - repeat constructor; simpl; intuition discriminate.
  - reflexivity.
  - reflexivity.
  - reflexivity.
  - right; left; reflexivity.
  - reflexivity.
  - right. split; [reflexivity|]. simpl. intuition discriminate.
Defined.

(* ===================================================================== *)
(** * What the filters leave in self.queryset *)
(* ===================================================================== *)

Lemma apply_filters_without_qty (db : Store) (cache : option (list Row))
  (request : Request) :
  ServerListViewSet.apply_filters db cache (without_qty request)
  = ServerListViewSet.apply_filters db cache request.
Proof.
  unfold ServerListViewSet.apply_filters, without_qty; cbn [query_params user].
  now rewrite !get_remove_key_other by discriminate.
Qed.

(** Case analysis on every condition of the filters, down to the
    outcome of the existence check. *)
Ltac filter_cases db qd u :=
  destruct (Python.truthy (get qd "category"));
  destruct (Python.eq_true (get qd "by_user"));
  destruct u;
  destruct (Python.eq_true (get qd "with_num_members"));
  destruct (Python.truthy (get qd "by_serverid"));
  cbn [bind ServerListViewSet.getattr_queryset filter annotate_num_members
       ServerListViewSet.queryset query where_category where_member where_id
       annotation high_mark result_cache is_authenticated negb orb user_pk];
  try discriminate;
  try (unfold py_int;
       destruct (Python.int (ServerListViewSet.value (get qd "by_serverid")))
         as [n|];
       cbn [bind try_except_ValueError query where_category where_member
            where_id annotation high_mark result_cache];
       try discriminate;
       try match goal with
         | |- context [exists_ db ?qs] =>
             unfold exists_, bind_parameters;
             cbn [query where_category where_member where_id annotation
                  high_mark result_cache];
             destruct (in_int64 n);
             cbn [bind try_except_ValueError];
             try discriminate;
             try match goal with
               | |- context [non_empty_list ?l] => destruct (non_empty_list l)
               end;
             cbn [bind negb try_except_ValueError];
             try discriminate
         end).

(** When the filters go through, [self.queryset] is either untouched or
    a fresh queryset for the query they describe, whose parameters the
    database accepts. *)
Lemma apply_filters_Ok (db : Store) (cache : option (list Row))
  (request : Request) (self : option QuerySet) :
  ServerListViewSet.apply_filters db cache request = Ok self ->
  self = if assigns request
         then Some {| query := filters_query request; result_cache := None |}
         else None.
Proof.
  destruct request as [qd u].
  unfold ServerListViewSet.apply_filters, assigns, filters_query;
    cbn [query_params user].
  filter_cases db qd u; now intros [= <-].
Qed.

Lemma apply_filters_Ok_parameters (db : Store) (cache : option (list Row))
  (request : Request) (self : option QuerySet) :
  ServerListViewSet.apply_filters db cache request = Ok self ->
  bind_parameters (filters_query request) = Ok tt.
Proof.
  destruct request as [qd u].
  unfold ServerListViewSet.apply_filters, filters_query, bind_parameters;
    cbn [query_params user where_id].
  destruct (Python.truthy (get qd "by_serverid")) eqn:Hsid; [|reflexivity].
  destruct (Python.int (ServerListViewSet.value (get qd "by_serverid")))
    as [n|] eqn:Hint; [|reflexivity].
  destruct (in_int64 n) eqn:Hrange; [reflexivity|].
  destruct (Python.truthy (get qd "category"));
  destruct (Python.eq_true (get qd "by_user"));
  destruct u;
  destruct (Python.eq_true (get qd "with_num_members"));
  cbn [bind ServerListViewSet.getattr_queryset filter annotate_num_members
       ServerListViewSet.queryset query is_authenticated negb];
  try discriminate;
  rewrite (py_int_Some _ n Hint);
  unfold exists_, bind_parameters;
  cbn [bind query where_category where_member where_id annotation high_mark
       result_cache];
  rewrite Hrange; discriminate.
Qed.

(** The filters go through only for a user that the by_user filter
    accepts. *)
Lemma apply_filters_Ok_user (db : Store) (cache : option (list Row))
  (request : Request) (self : option QuerySet) :
  ServerListViewSet.apply_filters db cache request = Ok self ->
  Python.eq_true (get (query_params request) "by_user") = true ->
  exists uid, user request = AuthenticatedUser uid.
Proof.
  destruct request as [qd u].
  unfold ServerListViewSet.apply_filters; cbn [query_params user].
  intros H Hby. rewrite Hby in H.
  destruct u as [|uid]; [|now exists uid].
  now destruct (Python.truthy (get qd "category")).
Qed.

(** What is left after the filters runs without error, and gives the
    rows of the query of the filters, or the cached rows of the class
    attribute when no filter applied. *)
Lemma execute_after_filters (db : Store) (cache : option (list Row))
  (request : Request) (self : option QuerySet) :
  ServerListViewSet.apply_filters db cache request = Ok self ->
  fetch_all db (ServerListViewSet.getattr_queryset
                  (ServerListViewSet.queryset cache) self)
  = Ok (results db (ServerListViewSet.getattr_queryset
                      (ServerListViewSet.queryset cache) self),
        {| query := query (ServerListViewSet.getattr_queryset
                             (ServerListViewSet.queryset cache) self);
           result_cache :=
             Some (results db (ServerListViewSet.getattr_queryset
                                 (ServerListViewSet.queryset cache) self)) |}).
Proof.
  intros Hf.
  pose proof (apply_filters_Ok_parameters _ _ _ _ Hf) as Hp.
  rewrite (apply_filters_Ok _ _ _ _ Hf).
  destruct (assigns request).
  - unfold fetch_all, execute, results;
      cbn [ServerListViewSet.getattr_queryset result_cache query].
    change (high_mark (filters_query request)) with (@None Z). cbv iota.
    now rewrite Hp.
  - destruct cache as [rows|]; reflexivity.
Qed.

(* ===================================================================== *)
(** * Truncation by qty *)
(* ===================================================================== *)

Lemma serializer_firstn (k : nat) (rows : list Row) (counts : bool) :
  ServerSerializer (firstn k rows) counts
  = firstn k (ServerSerializer rows counts).
Proof. unfold ServerSerializer. symmetry. apply firstn_map. Qed.


(** The handler without a usable qty: the serialized results of what the
    filters left. *)
Lemma list_without_qty (db : Store) (cache : option (list Row))
  (request : Request) (self : option QuerySet) :
  Python.truthy (get (query_params request) "qty") = false ->
  ServerListViewSet.apply_filters db cache request = Ok self ->
  fst (ServerListViewSet.list db cache request)
  = Ok (ServerSerializer
          (results db (ServerListViewSet.getattr_queryset
                         (ServerListViewSet.queryset cache) self))
          (Python.eq_true (get (query_params request) "with_num_members"))).
Proof.
  intros Hq Hf.
  pose proof (execute_after_filters _ _ _ _ Hf) as Hfetch.
  unfold ServerListViewSet.list, ServerListViewSet.apply_qty.
  rewrite Hf, Hq. cbn [bind].
  destruct self as [qs|];
    cbn [option_map ServerListViewSet.getattr_queryset] in *;
    now rewrite Hfetch.
Qed.

(** The handler with a qty that is a literal of a number that is not
    negative and that the database accepts as a limit, or that slices
    the cached rows of the class attribute: the first [n] of the same
    results. *)
Lemma list_with_qty (db : Store) (cache : option (list Row))
  (request : Request) (self : option QuerySet) (s : string) (n : Z) :
  get (query_params request) "qty" = Some s ->
  Python.int s = Some n -> 0 <= n ->
  n <= max_int64 \/ from_cache cache request = true ->
  ServerListViewSet.apply_filters db cache request = Ok self ->
  ServerListViewSet.list db cache request
  = (Ok (ServerSerializer
           (firstn (Z.to_nat n)
              (results db (ServerListViewSet.getattr_queryset
                             (ServerListViewSet.queryset cache) self)))
           (Python.eq_true (get (query_params request) "with_num_members"))),
     cache).
Proof.
  intros Hq Hint Hn Hbound Hf.
  pose proof (apply_filters_Ok _ _ _ _ Hf) as Hself.
  pose proof (apply_filters_Ok_parameters _ _ _ _ Hf) as Hp.
  unfold ServerListViewSet.list, ServerListViewSet.apply_qty.
  rewrite Hf, Hq, (truthy_Some s (int_nonempty s n Hint)).
  cbn [bind ServerListViewSet.value]. rewrite (py_int_Some s n Hint).
  cbn [bind]. unfold getitem_stop.
  destruct (Z.ltb_spec n 0) as [|_]; [lia|].
  unfold from_cache in Hbound.
  destruct (assigns request); subst self;
    cbn [ServerListViewSet.getattr_queryset ServerListViewSet.queryset
         result_cache query high_mark negb andb] in *.
  - destruct Hbound as [Hmax|]; [|discriminate].
    change (high_mark (filters_query request)) with (@None Z). cbv iota.
    cbn [bind fetch_all result_cache query]. unfold execute, results.
    cbn [high_mark result_cache query].
    destruct n as [|n|n]; [reflexivity| |lia].
    change (bind_parameters _) with (bind_parameters (filters_query request)).
    rewrite Hp. cbn [bind].
    destruct (Z.ltb_spec max_int64 (Z.pos n)) as [|_]; [lia|]. reflexivity.
  - destruct cache as [rows|]; cbn [bind fetch_all result_cache query];
      [reflexivity|].
    destruct Hbound as [Hmax|]; [|discriminate].
    unfold execute, results. cbn [high_mark result_cache query all_query].
    destruct n as [|n|n]; [reflexivity| |lia].
    cbn [bind_parameters where_id bind].
    destruct (Z.ltb_spec max_int64 (Z.pos n)) as [|_]; [lia|]. reflexivity.
Qed.

(** A qty beyond the 64-bit integers is a limit that the database
    rejects when the queryset is iterated, unless the rows come from
    the cache of the class attribute. *)
Lemma list_huge_qty (db : Store) (cache : option (list Row))
  (request : Request) (self : option QuerySet) (s : string) (n : Z) :
  get (query_params request) "qty" = Some s ->
  Python.int s = Some n -> max_int64 < n ->
  from_cache cache request = false ->
  ServerListViewSet.apply_filters db cache request = Ok self ->
  ServerListViewSet.list db cache request = (Raise IntegrityError, cache).
Proof.
  intros Hq Hint Hn Hfrom Hf.
  pose proof (apply_filters_Ok _ _ _ _ Hf) as Hself.
  pose proof (apply_filters_Ok_parameters _ _ _ _ Hf) as Hp.
  unfold ServerListViewSet.list, ServerListViewSet.apply_qty.
  rewrite Hf, Hq, (truthy_Some s (int_nonempty s n Hint)).
  cbn [bind ServerListViewSet.value]. rewrite (py_int_Some s n Hint).
  cbn [bind]. unfold getitem_stop.
  assert (Hmax : 0 < max_int64) by reflexivity.
  destruct (Z.ltb_spec n 0) as [|_]; [lia|].
  unfold from_cache in Hfrom.
  destruct (assigns request); subst self;
    cbn [ServerListViewSet.getattr_queryset ServerListViewSet.queryset
         result_cache query high_mark negb andb] in *.
  - change (high_mark (filters_query request)) with (@None Z). cbv iota.
    cbn [bind fetch_all result_cache query]. unfold execute.
    cbn [high_mark result_cache query].
    destruct n as [|n|n]; [lia| |lia].
    change (bind_parameters _) with (bind_parameters (filters_query request)).
    rewrite Hp. cbn [bind].
    destruct (Z.ltb_spec max_int64 (Z.pos n)) as [_|]; [reflexivity|lia].
  - destruct cache as [rows|]; [discriminate|].
    cbn [bind fetch_all result_cache query]. unfold execute.
    cbn [high_mark result_cache query all_query].
    destruct n as [|n|n]; [lia| |lia].
    cbn [bind_parameters where_id bind].
    destruct (Z.ltb_spec max_int64 (Z.pos n)) as [_|]; [reflexivity|lia].
Qed.

(** A negative qty is rejected by the slice, whatever the filters left. *)
Lemma list_negative_qty (db : Store) (cache : option (list Row))
  (request : Request) (self : option QuerySet) (s : string) (n : Z) :
  get (query_params request) "qty" = Some s ->
  Python.int s = Some n -> n < 0 ->
  ServerListViewSet.apply_filters db cache request = Ok self ->
  ServerListViewSet.list db cache request = (Raise NegativeIndexing, cache).
Proof.
  intros Hq Hint Hn Hf.
  unfold ServerListViewSet.list, ServerListViewSet.apply_qty.
  rewrite Hf, Hq, (truthy_Some s (int_nonempty s n Hint)).
  cbn [bind ServerListViewSet.value]. rewrite (py_int_Some s n Hint).
  cbn [bind]. unfold getitem_stop.
  destruct (Z.ltb_spec n 0) as [_|]; [reflexivity|lia].
Qed.

(** A qty that is not a literal makes [int] raise. *)
Lemma list_malformed_qty (db : Store) (cache : option (list Row))
  (request : Request) (self : option QuerySet) (s : string) :
  get (query_params request) "qty" = Some s ->
  s <> EmptyString -> Python.int s = None ->
  ServerListViewSet.apply_filters db cache request = Ok self ->
  ServerListViewSet.list db cache request = (Raise ValueError, cache).
Proof.
  intros Hq Hne Hint Hf.
  unfold ServerListViewSet.list, ServerListViewSet.apply_qty.
  rewrite Hf, Hq, (truthy_Some s Hne).
  cbn [bind ServerListViewSet.value]. now rewrite (py_int_None s Hint).
Qed.

(** An exception of the filters is the outcome, whatever qty is. *)
Lemma list_filters_raise (db : Store) (cache : option (list Row))
  (request : Request) (e : exception) :
  ServerListViewSet.apply_filters db cache request = Raise e ->
  ServerListViewSet.list db cache request = (Raise e, cache).
Proof.
  intros Hf. unfold ServerListViewSet.list. now rewrite Hf.
Qed.

Lemma without_qty_falsy (request : Request) :
  Python.truthy (get (query_params (without_qty request)) "qty") = false.
Proof.
  unfold without_qty; cbn [query_params]. now rewrite get_remove_key_same.
Qed.

Lemma without_qty_counts (request : Request) :
  get (query_params (without_qty request)) "with_num_members"
  = get (query_params request) "with_num_members".
Proof.
  unfold without_qty; cbn [query_params].
  now rewrite get_remove_key_other by discriminate.
Qed.

(** The outcomes of a request that the filters accept, by its qty. *)
Lemma qty_cases (db : Store) (cache : option (list Row)) (request : Request)
  (self : option QuerySet) :
  ServerListViewSet.apply_filters db cache request = Ok self ->
  let rows := results db (ServerListViewSet.getattr_queryset
                            (ServerListViewSet.queryset cache) self) in
  let counts := Python.eq_true (get (query_params request) "with_num_members") in
  let s := ServerListViewSet.value (get (query_params request) "qty") in
  (Python.truthy (get (query_params request) "qty") = false
   /\ fst (ServerListViewSet.list db cache request)
      = Ok (ServerSerializer rows counts))
  \/ (Python.truthy (get (query_params request) "qty") = true
      /\ get (query_params request) "qty" = Some s /\ s <> EmptyString
      /\ ((Python.int s = None
           /\ ServerListViewSet.list db cache request = (Raise ValueError, cache))
          \/ (exists n, Python.int s = Some n /\ n < 0
               /\ ServerListViewSet.list db cache request
                  = (Raise NegativeIndexing, cache))
          \/ (exists n, Python.int s = Some n /\ max_int64 < n
               /\ from_cache cache request = false
               /\ ServerListViewSet.list db cache request
                  = (Raise IntegrityError, cache))
          \/ (exists n, Python.int s = Some n /\ 0 <= n
               /\ (n <= max_int64 \/ from_cache cache request = true)
               /\ ServerListViewSet.list db cache request
                  = (Ok (ServerSerializer (firstn (Z.to_nat n) rows) counts),
                     cache)))).
Proof.
  intros Hf rows counts s.
  destruct (Python.truthy (get (query_params request) "qty")) eqn:Hq.
  - right. split; [reflexivity|].
    apply truthy_value in Hq as Hv. fold s in Hv.
    assert (Hne : s <> EmptyString).
    { intros E. rewrite Hv, E in Hq. discriminate. }
    split; [assumption|]. split; [assumption|].
    destruct (Python.int s) as [n|] eqn:Hint.
    + right.
      destruct (Z.lt_ge_cases n 0) as [Hneg|Hn].
      { left. exists n. split; [reflexivity|]. split; [assumption|].
        exact (list_negative_qty _ _ _ _ _ _ Hv Hint Hneg Hf). }
      right.
      destruct (from_cache cache request) eqn:Hfrom.
      { right. exists n. split; [reflexivity|]. split; [assumption|].
        split; [now right|].
        apply (list_with_qty _ _ _ _ _ _ Hv Hint Hn); [|assumption].
        now right. }
      destruct (Z.le_gt_cases n max_int64) as [Hle|Hgt].
      * right. exists n. split; [reflexivity|]. split; [assumption|].
        split; [now left|].
        apply (list_with_qty _ _ _ _ _ _ Hv Hint Hn); [|assumption].
        now left.
      * left. exists n. split; [reflexivity|]. split; [assumption|].
        split; [reflexivity|].
        exact (list_huge_qty _ _ _ _ _ _ Hv Hint Hgt Hfrom Hf).
    + left. split; [reflexivity|].
      exact (list_malformed_qty _ _ _ _ _ Hv Hne Hint Hf).
  - left. split; [reflexivity|]. exact (list_without_qty _ _ _ _ Hq Hf).
Qed.

(** C8, as amended: for a request whose qty is a non-empty string that
    is not an integer literal, the handler never answers with a list.
    When the other parameters are accepted (the same request without qty
    succeeds) it raises the ValueError of the integer parse, which is
    not an API exception and so is not handled; when they are rejected,
    it fails with the error of that request: the authentication error,
    the validation error, or the error of an id beyond 64 bits. *)
Theorem malformed_qty_is_unhandled (db : Store) (cache : option (list Row))
  (request : Request) (s : string) :
  get (query_params request) "qty" = Some s ->
  s <> EmptyString ->
  Python.int s = None ->
  match fst (ServerListViewSet.list db cache (without_qty request)) with
  | Ok _ =>
      ServerListViewSet.list db cache request = (Raise ValueError, cache)
      /\ unhandled ValueError
  | Raise e =>
      ServerListViewSet.list db cache request = (Raise e, cache)
  end.
Proof.
  intros Hqty Hne Hint.
  destruct (ServerListViewSet.apply_filters db cache request) as [self|e] eqn:Hf.
  - rewrite (list_without_qty db cache (without_qty request) self).
    + split; [|reflexivity].
      exact (list_malformed_qty _ _ _ _ _ Hqty Hne Hint Hf).
    + apply without_qty_falsy.
    + now rewrite apply_filters_without_qty.
  - rewrite (list_filters_raise db cache (without_qty request) e).
    + exact (list_filters_raise _ _ _ _ Hf).
    + now rewrite apply_filters_without_qty.
Qed.

Lemma malformed_qty_is_unhandled_witness :
  ServerListViewSet.list sample_db None
    (request_of AnonymousUser [("category", "gaming"); ("qty", "two")])
  = (Raise ValueError, None)
  /\ unhandled ValueError.
Proof.
  apply (malformed_qty_is_unhandled sample_db None
           (request_of AnonymousUser [("category", "gaming"); ("qty", "two")])
           "two").
  - reflexivity.
  - discriminate.
  - reflexivity.
Defined.

(** C8, as stated, fails: with by_user=true and no authentication the
    handler raises the authentication error, an API exception, before
    qty is looked at. *)
Lemma malformed_qty_after_failed_authentication :
  let request := request_of AnonymousUser [("by_user", "true"); ("qty", "two")] in
  get (query_params request) "qty" = Some "two"
  /\ Python.int "two" = None
  /\ fst (ServerListViewSet.list sample_db None request)
     = Raise AuthenticationFailed
  /\ is_api_exception AuthenticationFailed = true.
Proof.
  repeat split; reflexivity.
Qed.

(** C10, as amended: for a request whose qty is a literal of a negative
    integer, the handler never answers with a list.  When the other
    parameters are accepted (the same request without qty succeeds) the
    slice raises the error for negative indexing, which is not handled;
    when they are rejected, the handler fails with the error of that
    request: the authentication error, the validation error, or the
    error of an id beyond 64 bits. *)
Theorem negative_qty_is_unhandled (db : Store) (cache : option (list Row))
  (request : Request) (s : string) (n : Z) :
  get (query_params request) "qty" = Some s ->
  Python.int s = Some n ->
  n < 0 ->
  match fst (ServerListViewSet.list db cache (without_qty request)) with
  | Ok _ =>
      ServerListViewSet.list db cache request = (Raise NegativeIndexing, cache)
      /\ unhandled NegativeIndexing
  | Raise e =>
      ServerListViewSet.list db cache request = (Raise e, cache)
  end.
Proof.
  intros Hqty Hint Hneg.
  destruct (ServerListViewSet.apply_filters db cache request) as [self|e] eqn:Hf.
  - rewrite (list_without_qty db cache (without_qty request) self).
    + split; [|reflexivity].
      exact (list_negative_qty _ _ _ _ _ _ Hqty Hint Hneg Hf).
    + apply without_qty_falsy.
    + now rewrite apply_filters_without_qty.
  - rewrite (list_filters_raise db cache (without_qty request) e).
    + exact (list_filters_raise _ _ _ _ Hf).
    + now rewrite apply_filters_without_qty.
Qed.

Lemma negative_qty_is_unhandled_witness :
  ServerListViewSet.list sample_db None
    (request_of AnonymousUser [("qty", "-1")])
  = (Raise NegativeIndexing, None)
  /\ unhandled NegativeIndexing.
Proof.
  apply (negative_qty_is_unhandled sample_db None
           (request_of AnonymousUser [("qty", "-1")]) "-1" (-1)).
  - reflexivity.
  - reflexivity.
  - reflexivity.
Defined.

(** C10, as stated, fails: with a by_serverid that no server has, the
    handler answers with the validation error, an API exception, and
    the slice is never reached. *)
Lemma negative_qty_after_failed_lookup :
  let request :=
    request_of (AuthenticatedUser 1) [("by_serverid", "7"); ("qty", "-1")] in
  get (query_params request) "qty" = Some "-1"
  /\ Python.int "-1" = Some (-1)
  /\ fst (ServerListViewSet.list sample_db None request)
     = Raise (ValidationError "Could not find server with ID 7")
  /\ is_api_exception (ValidationError "Could not find server with ID 7") = true.
Proof.
  repeat split; reflexivity.
Qed.

(* ===================================================================== *)
(** * The contents of a successful response *)
(* ===================================================================== *)

(** A successful response is the serialized rows of what the filters
    left, cut by a qty that the handler can serve. *)
Lemma list_Ok_exact (db : Store) (cache : option (list Row))
  (request : Request) (resp : Response) :
  fst (ServerListViewSet.list db cache request) = Ok resp ->
  exists self,
    ServerListViewSet.apply_filters db cache request = Ok self
    /\ qty_served cache request
    /\ resp = take_qty (get (query_params request) "qty")
                (ServerSerializer
                   (results db (ServerListViewSet.getattr_queryset
                                  (ServerListViewSet.queryset cache) self))
                   (Python.eq_true (get (query_params request) "with_num_members"))).
Proof.
  intros Hok.
  destruct (ServerListViewSet.apply_filters db cache request) as [self|e] eqn:Hf.
  2:{ rewrite (list_filters_raise _ _ _ _ Hf) in Hok. discriminate. }
  exists self. split; [reflexivity|]. unfold take_qty, qty_served.
  destruct (qty_cases db cache request self Hf)
    as [(Hq & H)|(Hq & Hv & Hne & [(Hint & H)|[(n & Hint & _ & H)|
         [(n & Hint & _ & _ & H)|(n & Hint & Hn & Hb & H)]]])];
    rewrite H in Hok; try discriminate; rewrite Hq.
  - split; [discriminate|]. now injection Hok as <-.
  - rewrite Hint. split; [intros _; now exists n|].
    cbn [fst] in Hok. injection Hok as <-. apply serializer_firstn.
Qed.

(** A successful response serializes rows of what the filters left: all
    of them without a usable qty, an initial part of them otherwise. *)
Lemma list_Ok_rows (db : Store) (cache : option (list Row))
  (request : Request) (resp : Response) :
  fst (ServerListViewSet.list db cache request) = Ok resp ->
  exists self rows,
    ServerListViewSet.apply_filters db cache request = Ok self
    /\ resp = ServerSerializer rows
                (Python.eq_true (get (query_params request) "with_num_members"))
    /\ (forall r, In r rows ->
          In r (results db (ServerListViewSet.getattr_queryset
                              (ServerListViewSet.queryset cache) self)))
    /\ (Python.truthy (get (query_params request) "qty") = false ->
        rows = results db (ServerListViewSet.getattr_queryset
                             (ServerListViewSet.queryset cache) self)).
Proof.
  intros Hok.
  apply list_Ok_exact in Hok as (self & Hf & Hserved & ->).
  exists self. unfold take_qty.
  destruct (Python.truthy (get (query_params request) "qty")) eqn:Hq.
  - destruct (Hserved Hq) as (n & -> & _).
    eexists. split; [assumption|]. split; [symmetry; apply serializer_firstn|].
    split; [|discriminate]. intros r. apply In_firstn.
  - eexists. repeat split; auto.
Qed.

Lemma In_serializer (rows : list Row) (counts : bool) (o : ServerObject) :
  In o (ServerSerializer rows counts) ->
  exists r, In r rows /\ server o = instance r
            /\ obj_num_members o = if counts then num_members r else None.
Proof.
  unfold ServerSerializer. intros H.
  apply in_map_iff in H as (r & <- & Hr). exists r. auto.
Qed.

Lemma where_ok_filters_query (request : Request) (s : Server) :
  where_ok (filters_query request) s = true ->
  category_matches (get (query_params request) "category") s = true.
Proof.
  unfold where_ok, filters_query, category_matches; cbn [where_category].
  intros H. apply andb_true_iff in H as [H _].
  now destruct (Python.truthy (get (query_params request) "category")).
Qed.

Lemma where_ok_filters_query_no_id (request : Request) (s : Server) :
  Python.truthy (get (query_params request) "by_serverid") = false ->
  where_ok (filters_query request) s
  = category_matches (get (query_params request) "category") s.
Proof.
  unfold where_ok, filters_query, category_matches;
    cbn [where_category where_id].
  intros ->.
  destruct (Python.truthy (get (query_params request) "category"));
    now rewrite andb_true_r.
Qed.

(* ===================================================================== *)
(** * Filtering by membership *)
(* ===================================================================== *)

(** C6, as amended: when a request with by_user=true of an authenticated
    identity succeeds, every server of the returned list is a server of
    the store whose members include the identity and that matches the
    category filter; and when the request carries no usable by_serverid
    and no usable qty, every such server of the store is in the list. *)
Theorem by_user_lists_member_servers (db : Store) (cache : option (list Row))
  (request : Request) (uid : Z) (resp : Response) :
  user request = AuthenticatedUser uid ->
  get (query_params request) "by_user" = Some "true" ->
  fst (ServerListViewSet.list db cache request) = Ok resp ->
  (forall o, In o resp ->
     In (server o) db /\ In uid (member (server o))
     /\ category_matches (get (query_params request) "category") (server o) = true)
  /\ (Python.truthy (get (query_params request) "by_serverid") = false ->
      Python.truthy (get (query_params request) "qty") = false ->
      forall srv, In srv db -> In uid (member srv) ->
        category_matches (get (query_params request) "category") srv = true ->
        exists o, In o resp /\ server o = srv).
Proof.
  intros Hu Hby Hok.
  apply list_Ok_rows in Hok as (self & rows & Hf & -> & Hsub & Hall).
  apply apply_filters_Ok in Hf as Hself.
  assert (Hassigns : assigns request = true).
  { unfold assigns. rewrite Hby. cbn. now rewrite orb_true_r. }
  rewrite Hassigns in Hself. subst self.
  unfold results in *.
  cbn [ServerListViewSet.getattr_queryset result_cache query] in *.
  assert (Hmember : where_member (filters_query request) = Some uid).
  { unfold filters_query; cbn [where_member]. now rewrite Hby, Hu. }
  split.
  - intros o Ho.
    apply In_serializer in Ho as (r & Hr & -> & _).
    apply Hsub, In_select in Hr as (Hdb & Hwhere & Hjoin).
    repeat split; [assumption| |now apply where_ok_filters_query].
    now apply (join_rows_member _ _ _ Hmember).
  - intros Hsid Hqty srv Hdb Hin Hcat.
    rewrite (Hall Hqty).
    destruct (select_complete db (filters_query request) srv) as (r & Hr & Hi).
    + assumption.
    + now rewrite where_ok_filters_query_no_id.
    + now apply (join_rows_member _ _ _ Hmember).
    + eexists. split; [apply in_map, Hr|]. exact Hi.
Qed.

Lemma by_user_lists_member_servers_witness :
  (forall o, In o (plain_listing [studio] None false) ->
     In (server o) sample_db /\ In 2 (member (server o))
     /\ category_matches (Some "music") (server o) = true)
  /\ (Python.truthy None = false -> Python.truthy None = false ->
      forall srv, In srv sample_db -> In 2 (member srv) ->
        category_matches (Some "music") srv = true ->
        exists o, In o (plain_listing [studio] None false) /\ server o = srv).
Proof.
  apply (by_user_lists_member_servers sample_db None
           (request_of (AuthenticatedUser 2)
              [("category", "music"); ("by_user", "true")]) 2).
  - reflexivity.
  - reflexivity.
  - reflexivity.
Defined.

(** C6, as stated, fails: the identity is a member of a server of the
    store that the list does not contain, once with qty=0 and once with
    the by_serverid of another server. *)
Lemma by_user_with_more_filters_omits_member_server :
  In lobby sample_db /\ In 2 (member lobby)
  /\ fst (ServerListViewSet.list sample_db None
            (request_of (AuthenticatedUser 2) [("by_user", "true"); ("qty", "0")]))
     = Ok []
  /\ fst (ServerListViewSet.list sample_db None
            (request_of (AuthenticatedUser 2)
               [("by_user", "true"); ("by_serverid", "2")]))
     = Ok (plain_listing [studio] None false).
Proof.
  split; [left; reflexivity|].
  split; [right; left; reflexivity|].
  split; reflexivity.
Qed.

(* ===================================================================== *)
(** * The servers that a request selects *)
(* ===================================================================== *)

(** The filters go through with a by_serverid only when it is a literal
    of an integer of 64 bits. *)
Lemma apply_filters_Ok_serverid (db : Store) (cache : option (list Row))
  (request : Request) (self : option QuerySet) :
  ServerListViewSet.apply_filters db cache request = Ok self ->
  Python.truthy (get (query_params request) "by_serverid") = true ->
  exists n,
    Python.int (ServerListViewSet.value (get (query_params request) "by_serverid"))
    = Some n
    /\ in_int64 n = true.
Proof.
  intros Hf Hsid.
  pose proof (apply_filters_Ok_parameters _ _ _ _ Hf) as Hp.
  destruct request as [qd u].
  unfold filters_query, bind_parameters in Hp;
    cbn [query_params user where_id] in *.
  rewrite Hsid in Hp.
  destruct (Python.int (ServerListViewSet.value (get qd "by_serverid")))
    as [n|] eqn:Hint.
  - exists n. split; [reflexivity|].
    destruct (in_int64 n); [reflexivity|discriminate].
  - exfalso. revert Hf.
    unfold ServerListViewSet.apply_filters; cbn [query_params user].
    rewrite Hsid.
    destruct (Python.truthy (get qd "category"));
    destruct (Python.eq_true (get qd "by_user"));
    destruct u;
    destruct (Python.eq_true (get qd "with_num_members"));
    cbn [bind ServerListViewSet.getattr_queryset filter annotate_num_members
         ServerListViewSet.queryset query is_authenticated negb];
    try discriminate;
    rewrite (py_int_None _ Hint); discriminate.
Qed.

Lemma is_member_join_rows (q : Query) (uid : Z) (s : Server) :
  where_member q = Some uid ->
  negb (Nat.eqb (join_rows q s) 0) = is_member uid s.
Proof.
  intros Hm. unfold is_member.
  pose proof (join_rows_member q uid s Hm) as H.
  destruct (in_dec Z.eq_dec uid (member s)) as [Hin|Hnot];
    destruct (Nat.eqb_spec (join_rows q s) 0) as [E|E]; cbn; try reflexivity.
  - exfalso. now apply H in Hin.
  - exfalso. now apply Hnot, H.
Qed.

(** When by_user finds its identity and by_serverid is a literal, the
    servers for which the query of the filters has a row are the
    servers that the parameters of the request select. *)
Lemma has_row_selects_when (request : Request) (s : Server) :
  (Python.eq_true (get (query_params request) "by_user") = true ->
   exists uid, user request = AuthenticatedUser uid) ->
  (Python.truthy (get (query_params request) "by_serverid") = true ->
   exists n,
     Python.int (ServerListViewSet.value (get (query_params request) "by_serverid"))
     = Some n) ->
  has_row (filters_query request) s = selects request s.
Proof.
  intros Hu Hsid.
  unfold has_row, selects, where_ok.
  rewrite <- !andb_assoc. f_equal.
  - unfold filters_query, category_matches; cbn [where_category].
    now destruct (Python.truthy (get (query_params request) "category")).
  - rewrite andb_comm. f_equal.
    + destruct (Python.eq_true (get (query_params request) "by_user")) eqn:Hby.
      * destruct (Hu eq_refl) as (uid & Huid). rewrite Huid.
        apply is_member_join_rows.
        unfold filters_query; cbn [where_member]. now rewrite Hby, Huid.
      * unfold join_rows, filters_query; cbn [where_member]. now rewrite Hby.
    + unfold filters_query; cbn [where_id].
      destruct (Python.truthy (get (query_params request) "by_serverid"));
        [|reflexivity].
      destruct (Hsid eq_refl) as (n & ->). reflexivity.
Qed.

Lemma has_row_selects (db : Store) (cache : option (list Row))
  (request : Request) (self : option QuerySet) (s : Server) :
  ServerListViewSet.apply_filters db cache request = Ok self ->
  has_row (filters_query request) s = selects request s.
Proof.
  intros Hf. apply has_row_selects_when.
  - exact (apply_filters_Ok_user _ _ _ _ Hf).
  - intros Hsid.
    destruct (apply_filters_Ok_serverid _ _ _ _ Hf Hsid) as (n & Hint & _).
    now exists n.
Qed.

Lemma select_has_row (db : Store) (q : Query) (s : Server) :
  (exists r, In r (select db q) /\ instance r = s)
  <-> In s db /\ has_row q s = true.
Proof.
  unfold has_row. split.
  - intros (r & Hr & <-).
    apply In_select in Hr as (Hdb & Hok & Hj).
    split; [assumption|]. apply andb_true_iff. split; [assumption|].
    now apply negb_true_iff, Nat.eqb_neq.
  - intros (Hdb & H). apply andb_true_iff in H as [Hok Hj].
    apply negb_true_iff, Nat.eqb_neq in Hj.
    now apply select_complete.
Qed.

(** The rows that a request serializes when the result cache of the
    class attribute agrees with the store: in every case the rows of
    the query of its filters. *)
Lemma results_current (db : Store) (cache : option (list Row))
  (request : Request) :
  cache_current db cache ->
  results db (ServerListViewSet.getattr_queryset
                (ServerListViewSet.queryset cache)
                (if assigns request
                 then Some {| query := filters_query request;
                              result_cache := None |}
                 else None))
  = select db (filters_query request).
Proof.
  intros Hcache. unfold results.
  destruct (assigns request) eqn:Ha; [reflexivity|].
  assert (Hq : filters_query request = all_query).
  { unfold assigns in Ha. unfold filters_query, all_query.
    apply orb_false_iff in Ha as [Ha Hsid].
    apply orb_false_iff in Ha as [Ha Hcounts].
    apply orb_false_iff in Ha as [Hcat Hby].
    now rewrite Hcat, Hby, Hcounts, Hsid. }
  rewrite Hq.
  destruct cache as [rows|]; [exact Hcache|reflexivity].
Qed.




(* ===================================================================== *)
(** * Listing without by_user and by_serverid *)
(* ===================================================================== *)

(** The serialized rows of a query without a membership filter and
    without an id, over any arrangement of the servers. *)
Lemma serialize_rows_plain (q : Query) (counts : bool) (l : list Server) :
  where_member q = None ->
  (counts = true -> annotation q = Some OwnJoin) ->
  ServerSerializer (flat_map (rows_of q) l) counts
  = map (fun s => {| server := s;
                     obj_num_members :=
                       if counts then Some (Z.of_nat (List.length (member s)))
                       else None |}) l.
Proof.
  intros Hm Ha. unfold ServerSerializer.
  induction l as [|s l IH]; [reflexivity|].
  cbn [flat_map map]. rewrite map_app, IH. f_equal.
  unfold rows_of, join_rows, count_member, join_rows. rewrite Hm.
  destruct counts.
  - rewrite (Ha eq_refl). cbn. now rewrite Nat.mul_1_r.
  - now destruct (annotation q).
Qed.

Lemma select_plain (db : Store) (q : Query) (c : option string) (counts : bool) :
  where_category q
  = (if Python.truthy c then Some (ServerListViewSet.value c) else None) ->
  where_member q = None -> where_id q = None ->
  (counts = true -> annotation q = Some OwnJoin) ->
  Permutation (ServerSerializer (select db q) counts) (plain_listing db c counts)
  /\ (joins q = false ->
      ServerSerializer (select db q) counts = plain_listing db c counts).
Proof.
  intros Hc Hm Hi Ha.
  assert (Hsel : List.filter (where_ok q) db
                 = List.filter (category_matches c) db).
  { apply filter_ext. intros s. unfold where_ok, category_matches.
    rewrite Hc, Hi. destruct (Python.truthy c); now rewrite andb_true_r. }
  unfold select, plain_listing.
  rewrite (serialize_rows_plain q counts _ Hm Ha).
  unfold scan. rewrite Hsel. split.
  - apply Permutation_map.
    destruct (joins q); [apply join_order_permutes|apply Permutation_refl].
  - now intros ->.
Qed.

Lemma apply_filters_Raise (db : Store) (cache : option (list Row))
  (request : Request) (e : exception) :
  ServerListViewSet.apply_filters db cache request = Raise e ->
  (e = AuthenticationFailed
   /\ is_authenticated (user request) = false
   /\ (Python.eq_true (get (query_params request) "by_user") = true
       \/ Python.truthy (get (query_params request) "by_serverid") = true))
  \/ (is_authenticated (user request) = true
      /\ Python.truthy (get (query_params request) "by_serverid") = true
      /\ ((e = ValidationError "Server value error"
           /\ Python.int (ServerListViewSet.value
                            (get (query_params request) "by_serverid")) = None)
          \/ (e = ValidationError
                    ("Could not find server with ID "
                     ++ ServerListViewSet.value
                          (get (query_params request) "by_serverid"))
              /\ exists n,
                   Python.int (ServerListViewSet.value
                                 (get (query_params request) "by_serverid"))
                   = Some n /\ in_int64 n = true)
          \/ (e = OverflowError
              /\ exists n,
                   Python.int (ServerListViewSet.value
                                 (get (query_params request) "by_serverid"))
                   = Some n /\ in_int64 n = false))).
Proof.
  destruct request as [qd u].
  unfold ServerListViewSet.apply_filters; cbn [query_params user].
  destruct (Python.truthy (get qd "category"));
  destruct (Python.eq_true (get qd "by_user"));
  destruct u;
  destruct (Python.eq_true (get qd "with_num_members"));
  destruct (Python.truthy (get qd "by_serverid"));
  cbn [bind ServerListViewSet.getattr_queryset filter annotate_num_members
       ServerListViewSet.queryset query where_category where_member where_id
       annotation high_mark result_cache is_authenticated negb];
  try discriminate;
  try (intros [= <-]; left; repeat split; auto; fail);
  unfold py_int;
  destruct (Python.int (ServerListViewSet.value (get qd "by_serverid")))
    as [n|];
  cbn [bind try_except_ValueError query where_category where_member where_id
       annotation high_mark result_cache];
  try (intros [= <-]; right; repeat split; left; split; reflexivity);
  unfold exists_, bind_parameters;
  cbn [query where_category where_member where_id annotation high_mark
       result_cache];
  destruct (in_int64 n) eqn:Hrange; cbn [bind try_except_ValueError];
  try (intros [= <-]; right; repeat split; right; right;
       (split; [reflexivity|now exists n]));
  match goal with
  | |- context [non_empty_list ?l] => destruct (non_empty_list l)
  end; cbn [bind negb try_except_ValueError]; try discriminate;
  intros [= <-]; right; repeat split; right; left;
  (split; [reflexivity|now exists n]).
Qed.

Lemma apply_filters_no_serverid (db : Store) (cache : option (list Row))
  (request : Request) :
  Python.truthy (get (query_params request) "by_serverid") = false ->
  (Python.eq_true (get (query_params request) "by_user") = true ->
   is_authenticated (user request) = true) ->
  ServerListViewSet.apply_filters db cache request
  = Ok (if assigns request
        then Some {| query := filters_query request; result_cache := None |}
        else None).
Proof.
  intros Hsid Hauth.
  destruct (ServerListViewSet.apply_filters db cache request) as [self|e] eqn:Hf.
  - f_equal. now apply apply_filters_Ok in Hf.
  - exfalso.
    apply apply_filters_Raise in Hf as [(_ & Ha & [Hby|Hs])|(_ & Hs & _)].
    + rewrite (Hauth Hby) in Ha. discriminate.
    + rewrite Hsid in Hs. discriminate.
    + rewrite Hsid in Hs. discriminate.
Qed.

Lemma apply_filters_plain (db : Store) (cache : option (list Row))
  (request : Request) :
  Python.eq_true (get (query_params request) "by_user") = false ->
  Python.truthy (get (query_params request) "by_serverid") = false ->
  ServerListViewSet.apply_filters db cache request
  = Ok (if assigns request
        then Some {| query := filters_query request; result_cache := None |}
        else None).
Proof.
  intros Hby Hsid. apply apply_filters_no_serverid; [assumption|].
  rewrite Hby. discriminate.
Qed.

(** C7, as amended: a request that supplies neither by_user nor
    by_serverid, and whose qty is absent, empty or a literal of an
    integer that is not negative and fits 64 bits, succeeds whoever the
    requesting identity is and whatever the class attribute has cached;
    served while the result cache of the class attribute is empty or
    agrees with the store, it returns the servers of the store,
    narrowed by the category when a non-empty one is supplied, and cut
    to the first N by qty=N.  The servers come in the order of the
    store when neither a category nor the member count is asked for,
    and otherwise in the order that the database chooses for the
    query. *)
Theorem listing_without_authentication (db : Store) (cache : option (list Row))
  (qd : QueryDict) (u : User) :
  get qd "by_user" = None ->
  get qd "by_serverid" = None ->
  Python.truthy (get qd "qty") = false
  \/ (exists n, Python.int (ServerListViewSet.value (get qd "qty")) = Some n
                /\ 0 <= n <= max_int64) ->
  let full :=
    plain_listing db (get qd "category")
      (Python.eq_true (get qd "with_num_members")) in
  exists resp,
    fst (ServerListViewSet.list db cache {| query_params := qd; user := u |})
    = Ok resp
    /\ (cache_current db cache ->
        exists listing,
          Permutation listing full
          /\ (Python.truthy (get qd "category") = false ->
              Python.eq_true (get qd "with_num_members") = false ->
              listing = full)
          /\ resp = truncated (get qd "qty") listing).
Proof.
  intros Hby Hsid Hqty full.
  set (request := {| query_params := qd; user := u |}).
  assert (Hf := apply_filters_plain db cache request).
  cbn [request query_params] in Hf. rewrite Hby, Hsid in Hf.
  specialize (Hf eq_refl eq_refl).
  assert (Hrows :
    Permutation
      (ServerSerializer (select db (filters_query request))
         (Python.eq_true (get qd "with_num_members"))) full
    /\ (joins (filters_query request) = false ->
        ServerSerializer (select db (filters_query request))
          (Python.eq_true (get qd "with_num_members")) = full)).
  { apply select_plain; unfold filters_query; cbn [request query_params
      where_category where_member where_id high_mark annotation];
      rewrite ?Hby, ?Hsid; try reflexivity.
    now intros ->. }
  destruct Hrows as [Hperm Hsame].
  assert (Horder :
    Python.truthy (get qd "category") = false ->
    Python.eq_true (get qd "with_num_members") = false ->
    joins (filters_query request) = false).
  { intros Hc Hn. unfold joins, filters_query.
    cbn [request query_params where_category where_member annotation].
    now rewrite Hc, Hn, Hby. }
  unfold truncated.
  destruct (Python.truthy (get qd "qty")) eqn:Hq.
  - destruct Hqty as [|(n & Hint & Hn & Hmax)]; [discriminate|].
    rewrite Hint.
    rewrite (list_with_qty db cache request _ _ n (truthy_value _ Hq) Hint Hn
               (or_introl Hmax) Hf).
    eexists. split; [reflexivity|]. intros Hcache.
    eexists. split; [exact Hperm|]. split; [now auto|].
    cbn [request query_params].
    now rewrite (results_current db cache request Hcache), serializer_firstn.
  - rewrite (list_without_qty db cache request _ Hq Hf).
    eexists. split; [reflexivity|]. intros Hcache.
    eexists. split; [exact Hperm|]. split; [now auto|].
    cbn [request query_params].
    now rewrite (results_current db cache request Hcache).
Qed.

Lemma listing_without_authentication_witness :
  let full := plain_listing sample_db (Some "gaming") false in
  exists resp,
    fst (ServerListViewSet.list sample_db None
           {| query_params := [("category", "gaming"); ("qty", "2")];
              user := AnonymousUser |})
    = Ok resp
    /\ (cache_current sample_db None ->
        exists listing,
          Permutation listing full
          /\ (Python.truthy (Some "gaming") = false ->
              Python.eq_true None = false ->
              listing = full)
          /\ resp = truncated (Some "2") listing).
Proof.
  apply (listing_without_authentication sample_db None
           [("category", "gaming"); ("qty", "2")] AnonymousUser).
  - reflexivity.
  - reflexivity.
  - right. exists 2. split; [reflexivity|]. split; [lia|discriminate].
Defined.

(** C7, as stated, fails.  A request without by_user and by_serverid
    does not succeed when its qty is not a literal, or is a literal
    beyond the 64-bit integers, which the database rejects as a limit.
    And a request without any parameter is answered from the rows that
    the class attribute cached when it was first iterated: here the
    cache was filled when the store held one server, and the second
    server of the store is missing from the list. *)
Lemma listing_fails_or_is_stale :
  fst (ServerListViewSet.list sample_db None (request_of AnonymousUser [("qty", "two")]))
  = Raise ValueError
  /\ fst (ServerListViewSet.list sample_db None
            (request_of AnonymousUser [("qty", "9223372036854775808")]))
     = Raise IntegrityError
  /\ snd (ServerListViewSet.list old_db None (request_of AnonymousUser []))
     = Some (select old_db all_query)
  /\ fst (ServerListViewSet.list sample_db (Some (select old_db all_query))
            (request_of AnonymousUser []))
     = Ok (plain_listing old_db None false)
  /\ In studio sample_db.
Proof.
  repeat split. right; left; reflexivity.
Qed.

(* ===================================================================== *)
(** * The member count *)
(* ===================================================================== *)

Lemma select_num_members (db : Store) (q : Query) (j : CountJoin) (r : Row) :
  annotation q = Some j ->
  In r (select db q) ->
  num_members r = Some (count_member q j (instance r)).
Proof.
  intros Ha H. unfold select in H.
  apply in_flat_map in H as (s & _ & Hr).
  unfold rows_of in Hr. rewrite Ha in Hr.
  destruct (Nat.eqb (join_rows q s) 0); [contradiction|].
  destruct Hr as [<-|[]]. reflexivity.
Qed.

(** X11: without by_user, the count that with_num_members=true attaches
    is the number of members of the server, whatever the category, the
    by_serverid and the qty of the request. *)
Lemma num_members_without_by_user (db : Store) (request : Request)
  (resp : Response) :
  Python.eq_true (get (query_params request) "by_user") = false ->
  Python.eq_true (get (query_params request) "with_num_members") = true ->
  forall cache, fst (ServerListViewSet.list db cache request) = Ok resp ->
  forall o, In o resp ->
    obj_num_members o = Some (Z.of_nat (List.length (member (server o)))).
Proof.
  intros Hby Hcounts cache Hok o Ho.
  apply list_Ok_rows in Hok as (self & rows & Hf & -> & Hsub & _).
  apply apply_filters_Ok in Hf.
  assert (Hassigns : assigns request = true).
  { unfold assigns. rewrite Hcounts. cbn. now rewrite orb_true_r. }
  rewrite Hassigns in Hf. subst self.
  unfold results in Hsub.
  cbn [ServerListViewSet.getattr_queryset result_cache query] in Hsub.
  rewrite Hcounts in Ho.
  apply In_serializer in Ho as (r & Hr & -> & ->).
  rewrite (select_num_members db (filters_query request) OwnJoin r).
  - unfold count_member, join_rows, filters_query; cbn [where_member].
    rewrite Hby. now rewrite Nat.mul_1_r.
  - unfold filters_query; cbn [annotation]. now rewrite Hcounts, Hby.
  - now apply Hsub.
Qed.

(** X12: with by_user=true, the count is taken over the join that the
    membership filter restricted to the requesting identity: it is 1 for
    every server returned. *)
Lemma num_members_with_by_user (db : Store) (request : Request)
  (resp : Response) :
  unique_membership db ->
  get (query_params request) "by_user" = Some "true" ->
  Python.eq_true (get (query_params request) "with_num_members") = true ->
  forall cache, fst (ServerListViewSet.list db cache request) = Ok resp ->
  forall o, In o resp -> obj_num_members o = Some 1.
Proof.
  intros Huniq Hby Hcounts cache Hok o Ho.
  apply list_Ok_rows in Hok as (self & rows & Hf & -> & Hsub & _).
  destruct (apply_filters_Ok_user _ _ _ _ Hf) as (uid & Hu);
    [now rewrite Hby|].
  apply apply_filters_Ok in Hf.
  assert (Hassigns : assigns request = true).
  { unfold assigns. rewrite Hcounts. cbn. now rewrite orb_true_r. }
  rewrite Hassigns in Hf. subst self.
  unfold results in Hsub.
  cbn [ServerListViewSet.getattr_queryset result_cache query] in Hsub.
  rewrite Hcounts in Ho.
  apply In_serializer in Ho as (r & Hr & _ & ->).
  apply Hsub in Hr.
  rewrite (select_num_members db (filters_query request) ReusedJoin r);
    [| unfold filters_query; cbn [annotation]; now rewrite Hcounts, Hby
     | assumption ].
  apply In_select in Hr as (Hdb & _ & Hjoin).
  unfold count_member. revert Hjoin.
  unfold join_rows, filters_query; cbn [where_member].
  rewrite Hby, eq_true_Some_true, Hu. cbn [user_pk].
  pose proof (proj1 (NoDup_count_occ Z.eq_dec (member (instance r)))
                (Huniq _ Hdb) uid) as Hle.
  intros Hne. f_equal. lia.
Qed.

(** C2: the code at the failing input.  The server has two members; the
    request of one of them with by_user=true and with_num_members=true
    makes the handler serialize a row whose num_members is 1, and the
    object returned carries that 1. *)
Theorem num_members_under_by_user :
  let request :=
    request_of (AuthenticatedUser 1)
      [("by_user", "true"); ("with_num_members", "true")] in
  primary_key sample_db /\ unique_membership sample_db
  /\ List.length (member lobby) = 2%nat
  /\ option_map (fun qs => execute sample_db (query qs))
       (match ServerListViewSet.apply_filters sample_db None request with
        | Ok self => self
        | Raise _ => None
        end)
     = Some (Ok [ {| instance := lobby; num_members := Some 1 |} ])
  /\ fst (ServerListViewSet.list sample_db None request)
     = Ok [ {| server := lobby; obj_num_members := Some 1 |} ].
Proof.
  repeat split.
  - repeat constructor; simpl; intuition discriminate.
  - intros s [<-|[<-|[]]]; repeat constructor; simpl; intuition discriminate.
Qed.

(* ===================================================================== *)
(** * The exceptions of the handler *)
(* ===================================================================== *)

Lemma apply_filters_anonymous (db : Store) (cache : option (list Row))
  (request : Request) :
  is_authenticated (user request) = false ->
  Python.eq_true (get (query_params request) "by_user") = true
  \/ Python.truthy (get (query_params request) "by_serverid") = true ->
  ServerListViewSet.apply_filters db cache request = Raise AuthenticationFailed.
Proof.
  destruct request as [qd u]; cbn [query_params user].
  destruct u as [|uid]; [intros _|discriminate].
  unfold ServerListViewSet.apply_filters; cbn [query_params user].
  intros [Hby|Hsid].
  - rewrite Hby. now destruct (Python.truthy (get qd "category")).
  - rewrite Hsid.
    destruct (Python.truthy (get qd "category"));
      destruct (Python.eq_true (get qd "by_user")); cbn; try reflexivity;
      now destruct (Python.eq_true (get qd "with_num_members")).
Qed.

(** An exception of the handler comes from the filters or from qty. *)
Lemma list_Raise_inv (db : Store) (cache : option (list Row))
  (request : Request) (e : exception) :
  fst (ServerListViewSet.list db cache request) = Raise e ->
  ServerListViewSet.apply_filters db cache request = Raise e
  \/ (Python.truthy (get (query_params request) "qty") = true
      /\ ((e = ValueError
           /\ Python.int (ServerListViewSet.value
                            (get (query_params request) "qty")) = None)
          \/ (e = NegativeIndexing
              /\ exists n,
                   Python.int (ServerListViewSet.value
                                 (get (query_params request) "qty")) = Some n
                   /\ n < 0)
          \/ (e = IntegrityError
              /\ exists n,
                   Python.int (ServerListViewSet.value
                                 (get (query_params request) "qty")) = Some n
                   /\ max_int64 < n))).
Proof.
  intros H.
  destruct (ServerListViewSet.apply_filters db cache request) as [self|e'] eqn:Hf.
  2:{ rewrite (list_filters_raise _ _ _ _ Hf) in H. injection H as ->.
      now left. }
  right.
  destruct (qty_cases db cache request self Hf)
    as [(Hq & H')|(Hq & Hv & Hne & [(Hint & H')|[(n & Hint & Hn & H')|
         [(n & Hint & Hn & _ & H')|(n & Hint & Hn & Hb & H')]]])];
    rewrite H' in H; try discriminate; injection H as <-;
    (split; [assumption|]).
  - left. now split.
  - right. left. split; [reflexivity|]. now exists n.
  - right. right. split; [reflexivity|]. now exists n.
Qed.

(** X1: the handler fails with the authentication error exactly when the
    identity is not authenticated and the request carries by_user=true
    or a non-empty by_serverid. *)
Theorem authentication_error_iff (db : Store) (cache : option (list Row))
  (request : Request) :
  fst (ServerListViewSet.list db cache request) = Raise AuthenticationFailed
  <-> is_authenticated (user request) = false
      /\ (Python.eq_true (get (query_params request) "by_user") = true
          \/ Python.truthy (get (query_params request) "by_serverid") = true).
Proof.
  split.
  - intros H.
    apply list_Raise_inv in H as [H|(_ & [[H _]|[[H _]|[H _]]])];
      try discriminate.
    apply apply_filters_Raise in H
      as [(_ & Ha & Hp)|(_ & _ & [[H _]|[[H _]|[H _]]])];
      try discriminate.
    now split.
  - intros [Ha Hp].
    now rewrite (list_filters_raise _ _ _ _
                   (apply_filters_anonymous db cache request Ha Hp)).
Qed.

(** X2: a validation error is raised only for an authenticated identity
    and a non-empty by_serverid, and its detail is one of two: the fixed
    text for an id that is not an integer literal, or the text that ends
    with the by_serverid sent, for a literal. *)
Theorem validation_error_only_from_serverid (db : Store)
  (cache : option (list Row)) (request : Request) (detail : string) :
  fst (ServerListViewSet.list db cache request) = Raise (ValidationError detail) ->
  is_authenticated (user request) = true
  /\ exists s,
       get (query_params request) "by_serverid" = Some s /\ s <> EmptyString
       /\ ((detail = "Server value error" /\ Python.int s = None)
           \/ (detail = "Could not find server with ID " ++ s
               /\ exists n, Python.int s = Some n)).
Proof.
  intros H. apply list_Raise_inv in H as [H|(_ & [[H _]|[[H _]|[H _]]])];
    try discriminate.
  apply apply_filters_Raise in H as [(H & _)|(Ha & Hsid & Hd)];
    [discriminate|].
  split; [assumption|].
  apply truthy_value in Hsid as Hv.
  exists (ServerListViewSet.value (get (query_params request) "by_serverid")).
  split; [assumption|]. split.
  - intros E. rewrite Hv, E in Hsid. discriminate.
  - destruct Hd as [[H1 Hint]|[[H1 (n & Hint & _)]|[H1 _]]];
      [injection H1 as ->; left; now split
      |injection H1 as ->; right; split; [reflexivity|now exists n]
      |discriminate H1].
Qed.

Lemma validation_error_only_from_serverid_witness :
  is_authenticated (AuthenticatedUser 1) = true
  /\ exists s,
       get [("by_serverid", "7")] "by_serverid" = Some s /\ s <> EmptyString
       /\ (("Could not find server with ID 7" = "Server value error"
            /\ Python.int s = None)
           \/ ("Could not find server with ID 7"
               = "Could not find server with ID " ++ s
               /\ exists n, Python.int s = Some n)).
Proof.
  apply (validation_error_only_from_serverid sample_db None
           (request_of (AuthenticatedUser 1) [("by_serverid", "7")])
           "Could not find server with ID 7").
  reflexivity.
Defined.

(** X3: an exception that is not an API exception has one of two
    sources.  It comes from by_serverid, for an authenticated identity,
    when it is a literal of an integer beyond 64 bits, which the driver
    refuses to bind; or it comes from qty: the ValueError of a non-empty
    qty that is not an integer literal, the error of a negative one, or
    the error of the database for a limit beyond 64 bits. *)
Theorem unhandled_exception_sources (db : Store) (cache : option (list Row))
  (request : Request) (e : exception) :
  fst (ServerListViewSet.list db cache request) = Raise e ->
  unhandled e ->
  (e = OverflowError
   /\ is_authenticated (user request) = true
   /\ exists s n,
        get (query_params request) "by_serverid" = Some s
        /\ Python.int s = Some n /\ in_int64 n = false)
  \/ (exists s,
        get (query_params request) "qty" = Some s /\ s <> EmptyString
        /\ ((e = ValueError /\ Python.int s = None)
            \/ (e = NegativeIndexing
                /\ exists n, Python.int s = Some n /\ n < 0)
            \/ (e = IntegrityError
                /\ exists n, Python.int s = Some n /\ max_int64 < n))).
Proof.
  intros H Hun. apply list_Raise_inv in H as [H|(Hq & Hd)].
  - left.
    apply apply_filters_Raise in H
      as [(-> & _)|(Ha & Hsid & [[-> _]|[[-> _]|[-> (n & Hint & Hr)]]])];
      try discriminate Hun.
    split; [reflexivity|]. split; [assumption|].
    exists (ServerListViewSet.value (get (query_params request) "by_serverid")), n.
    split; [now apply truthy_value|]. now split.
  - right. apply truthy_value in Hq as Hv.
    exists (ServerListViewSet.value (get (query_params request) "qty")).
    split; [assumption|]. split; [|assumption].
    intros E. rewrite Hv, E in Hq. discriminate.
Qed.

Lemma unhandled_exception_sources_witness :
  (OverflowError = OverflowError
   /\ is_authenticated (AuthenticatedUser 1) = true
   /\ exists s n,
        get [("by_serverid", "-9223372036854775809")] "by_serverid" = Some s
        /\ Python.int s = Some n /\ in_int64 n = false)
  \/ (exists s,
        get [("by_serverid", "-9223372036854775809")] "qty" = Some s
        /\ s <> EmptyString
        /\ ((OverflowError = ValueError /\ Python.int s = None)
            \/ (OverflowError = NegativeIndexing
                /\ exists n, Python.int s = Some n /\ n < 0)
            \/ (OverflowError = IntegrityError
                /\ exists n, Python.int s = Some n /\ max_int64 < n))).
Proof.
  apply (unhandled_exception_sources sample_db None
           (request_of (AuthenticatedUser 1)
              [("by_serverid", "-9223372036854775809")]) OverflowError).
  - reflexivity.
  - reflexivity.
Defined.

(* ===================================================================== *)
(** * The successful response as a function of the store *)
(* ===================================================================== *)

Lemma Permutation_filter {A : Type} (p : A -> bool) (l l' : list A) :
  Permutation l l' -> Permutation (List.filter p l) (List.filter p l').
Proof.
  induction 1 as [|x l l' _ IH|x y l|l l' l'' _ IH _ IH'];
    cbn [List.filter].
  - constructor.
  - destruct (p x); [now constructor|assumption].
  - destruct (p x), (p y); try apply Permutation_refl. apply perm_swap.
  - now apply Permutation_trans with (List.filter p l').
Qed.

(** When no server is joined to more than one membership row, a query
    has one row for each server that it visits and joins. *)
Lemma rows_of_visited (q : Query) (l : list Server) :
  (forall s, In s l -> (join_rows q s <= 1)%nat) ->
  flat_map (rows_of q) l = map (row_of q) (List.filter (joined q) l).
Proof.
  intros Hle.
  induction l as [|s l IH]; [reflexivity|].
  assert (IH' := IH (fun s' Hs' => Hle s' (or_intror Hs'))).
  specialize (Hle s (or_introl eq_refl)).
  cbn [List.filter flat_map]. rewrite IH'.
  unfold rows_of, row_of, joined.
  destruct (join_rows q s) as [|[|k]] eqn:Hj; [| |lia].
  - now destruct (annotation q).
  - cbn [Nat.eqb negb map]. now destruct (annotation q).
Qed.

Lemma join_rows_filters_query (db : Store) (request : Request) (s : Server) :
  unique_membership db -> In s db ->
  (join_rows (filters_query request) s <= 1)%nat.
Proof.
  intros Huniq Hs. unfold join_rows.
  destruct (where_member (filters_query request)) as [u|]; [|lia].
  exact (proj1 (NoDup_count_occ Z.eq_dec (member s)) (Huniq s Hs) u).
Qed.

Lemma visited_permutes (db : Store) (q : Query) :
  Permutation (visited db q) (List.filter (has_row q) db).
Proof.
  unfold visited, scan.
  assert (Hsame : List.filter (joined q) (List.filter (where_ok q) db)
                  = List.filter (has_row q) db).
  { unfold has_row, joined.
    induction (servers db) as [|s l IH]; [reflexivity|].
    cbn [List.filter].
    destruct (where_ok q s); cbn [andb List.filter]; [|exact IH].
    destruct (negb _); now rewrite IH. }
  rewrite <- Hsame.
  destruct (joins q); [|apply Permutation_refl].
  apply Permutation_filter, join_order_permutes.
Qed.

Lemma visited_in_table_order (db : Store) (q : Query) :
  joins q = false ->
  visited db q = List.filter (has_row q) db.
Proof.
  intros Hj. unfold visited, scan, has_row, joined. rewrite Hj.
  induction (servers db) as [|s l IH]; [reflexivity|].
  cbn [List.filter].
  destruct (where_ok q s); cbn [andb List.filter]; [|exact IH].
  destruct (negb _); now rewrite IH.
Qed.

Lemma select_visited (db : Store) (request : Request) :
  unique_membership db ->
  select db (filters_query request)
  = map (row_of (filters_query request)) (visited db (filters_query request)).
Proof.
  intros Huniq. unfold select, visited.
  apply rows_of_visited. intros s Hs.
  apply In_scan in Hs as [Hdb _].
  now apply (join_rows_filters_query db).
Qed.

(** The object serialized from the row of a selected server. *)
Lemma serialize_row_of (db : Store) (cache : option (list Row))
  (request : Request) (self : option QuerySet) (s : Server) :
  ServerListViewSet.apply_filters db cache request = Ok self ->
  (join_rows (filters_query request) s <= 1)%nat ->
  joined (filters_query request) s = true ->
  {| server := instance (row_of (filters_query request) s);
     obj_num_members :=
       if Python.eq_true (get (query_params request) "with_num_members")
       then num_members (row_of (filters_query request) s) else None |}
  = object_of request s.
Proof.
  intros Hf Hle Hj.
  unfold object_of, row_of; cbn [instance num_members]. f_equal.
  destruct (Python.eq_true (get (query_params request) "with_num_members"))
    eqn:Hcounts; [|reflexivity].
  apply negb_true_iff, Nat.eqb_neq in Hj.
  assert (Hone : join_rows (filters_query request) s = 1%nat) by lia.
  unfold filters_query at 2; cbn [annotation]. rewrite Hcounts.
  cbn [option_map]. f_equal. unfold count_member. rewrite Hone.
  destruct (Python.eq_true (get (query_params request) "by_user"));
    [reflexivity|]. now rewrite Nat.mul_1_r.
Qed.

Lemma serialize_visited (db : Store) (cache : option (list Row))
  (request : Request) (self : option QuerySet) :
  unique_membership db ->
  ServerListViewSet.apply_filters db cache request = Ok self ->
  ServerSerializer (select db (filters_query request))
    (Python.eq_true (get (query_params request) "with_num_members"))
  = map (object_of request) (visited db (filters_query request)).
Proof.
  intros Huniq Hf.
  rewrite (select_visited db request Huniq).
  unfold ServerSerializer. rewrite map_map.
  apply map_ext_in. intros s Hs.
  unfold visited in Hs. apply filter_In in Hs as [Hs Hj].
  apply In_scan in Hs as [Hdb _].
  apply (serialize_row_of db cache request self s Hf);
    [now apply (join_rows_filters_query db)|assumption].
Qed.

Lemma filter_has_row_selects (db : Store) (cache : option (list Row))
  (request : Request) (self : option QuerySet) :
  ServerListViewSet.apply_filters db cache request = Ok self ->
  List.filter (has_row (filters_query request)) db
  = List.filter (selects request) db.
Proof.
  intros Hf. apply filter_ext. intros s.
  exact (has_row_selects _ _ _ _ s Hf).
Qed.

(** X4: the successful response as a function of the store.  When no
    user is related to a server twice and the result cache of the class
    attribute is empty or agrees with the store, a request that succeeds
    returns one object for each server that its category, by_user and
    by_serverid select, cut to the first N by qty=N.  When the request
    asks for no category, no membership and no member count, the
    objects come in the order of the store; otherwise its query joins
    another table, and they come in the order in which the database
    returns the rows of that query, which is some rearrangement of the
    selected servers. *)
Theorem response_is_selection (db : Store) (cache : option (list Row))
  (request : Request) (resp : Response) :
  unique_membership db ->
  cache_current db cache ->
  fst (ServerListViewSet.list db cache request) = Ok resp ->
  exists l,
    Permutation l (List.filter (selects request) db)
    /\ (Python.truthy (get (query_params request) "category") = false ->
        Python.eq_true (get (query_params request) "by_user") = false ->
        Python.eq_true (get (query_params request) "with_num_members") = false ->
        l = List.filter (selects request) db)
    /\ resp = take_qty (get (query_params request) "qty")
                (map (object_of request) l).
Proof.
  intros Huniq Hcache Hok.
  apply list_Ok_exact in Hok as (self & Hf & _ & ->).
  exists (visited db (filters_query request)).
  rewrite <- (filter_has_row_selects db cache request self Hf).
  split; [apply visited_permutes|]. split.
  - intros Hcat Hby Hcounts. apply visited_in_table_order.
    unfold joins, filters_query; cbn [where_category where_member annotation].
    now rewrite Hcat, Hby, Hcounts.
  - f_equal.
    rewrite (apply_filters_Ok _ _ _ _ Hf), (results_current db cache request Hcache).
    exact (serialize_visited db cache request self Huniq Hf).
Qed.

Lemma response_is_selection_witness :
  let request :=
    request_of (AuthenticatedUser 2)
      [("by_user", "true"); ("with_num_members", "true")] in
  exists l,
    Permutation l (List.filter (selects request) reversing_db)
    /\ (Python.truthy (get (query_params request) "category") = false ->
        Python.eq_true (get (query_params request) "by_user") = false ->
        Python.eq_true (get (query_params request) "with_num_members") = false ->
        l = List.filter (selects request) reversing_db)
    /\ [ {| server := studio; obj_num_members := Some 1 |};
         {| server := lobby; obj_num_members := Some 1 |} ]
       = take_qty (get (query_params request) "qty")
           (map (object_of request) l).
Proof.
  apply (response_is_selection reversing_db None
           (request_of (AuthenticatedUser 2)
              [("by_user", "true"); ("with_num_members", "true")])).
  - intros s [<-|[<-|[]]]; repeat constructor; simpl; intuition discriminate.
  - exact I.
  - reflexivity.
Defined.

(* ===================================================================== *)
(** * A by_serverid that is found *)
(* ===================================================================== *)

Lemma filter_unique {A : Type} (p : A -> bool) (l : list A) (a : A) :
  NoDup l -> In a l -> p a = true ->
  (forall x, In x l -> p x = true -> x = a) ->
  List.filter p l = [a].
Proof.
  induction l as [|x l IH]; [contradiction|].
  intros Hnd Hin Hpa Huniq.
  inversion Hnd as [|? ? Hnotin Hnd']; subst.
  assert (Hrest : forall y, In y l -> y <> a -> p y = false).
  { intros y Hy Hne. destruct (p y) eqn:E; [|reflexivity].
    exfalso. apply Hne, Huniq; [now right|assumption]. }
  cbn [List.filter].
  destruct Hin as [->|Hin].
  - rewrite Hpa. f_equal.
    assert (Hnone : forall y, In y l -> p y = false).
    { intros y Hy. apply Hrest; [assumption|]. intros ->. contradiction. }
    clear -Hnone. induction l as [|y l IH]; [reflexivity|].
    cbn [List.filter]. rewrite (Hnone y (or_introl eq_refl)).
    apply IH. intros z Hz. apply Hnone. now right.
  - assert (Hx : p x = false).
    { destruct (p x) eqn:E; [|reflexivity].
      exfalso. apply Hnotin.
      rewrite (Huniq x (or_introl eq_refl) E). assumption. }
    rewrite Hx. apply IH; auto.
    intros y Hy. apply Huniq. now right.
Qed.

Lemma primary_key_NoDup (db : Store) : primary_key db -> NoDup db.
Proof. apply NoDup_map_inv. Qed.

Lemma selects_id (request : Request) (s : string) (n : Z) (srv : Server) :
  get (query_params request) "by_serverid" = Some s ->
  Python.int s = Some n ->
  selects request srv = true -> id srv = n.
Proof.
  intros Hs Hint H. unfold selects in H.
  apply andb_true_iff in H as [_ H].
  rewrite Hs, (truthy_Some s (int_nonempty s n Hint)) in H.
  cbn [ServerListViewSet.value] in H. rewrite Hint in H.
  now apply Z.eqb_eq.
Qed.

(** For an authenticated identity and a by_serverid that is a literal
    of an integer of 64 bits, the filters go through exactly when their
    query has a row. *)
Lemma apply_filters_serverid (db : Store) (cache : option (list Row))
  (request : Request) (uid : Z) (s : string) (n : Z) :
  user request = AuthenticatedUser uid ->
  get (query_params request) "by_serverid" = Some s ->
  Python.int s = Some n ->
  in_int64 n = true ->
  ServerListViewSet.apply_filters db cache request
  = if non_empty_list (select db (filters_query request))
    then Ok (Some {| query := filters_query request; result_cache := None |})
    else Raise (ValidationError ("Could not find server with ID " ++ s)).
Proof.
  intros Hu Hs Hint Hrange.
  destruct request as [qd u]; cbn [query_params user] in *; subst u.
  unfold ServerListViewSet.apply_filters, filters_query;
    cbn [query_params user user_pk].
  rewrite Hs, (truthy_Some s (int_nonempty s n Hint)).
  cbn [ServerListViewSet.value]. rewrite Hint.
  destruct (Python.truthy (get qd "category"));
  destruct (Python.eq_true (get qd "by_user"));
  destruct (Python.eq_true (get qd "with_num_members"));
  cbn [bind ServerListViewSet.getattr_queryset filter annotate_num_members
       ServerListViewSet.queryset query where_category where_member where_id
       annotation high_mark result_cache is_authenticated negb];
  rewrite (py_int_Some s n Hint);
  unfold exists_, bind_parameters;
  cbn [bind try_except_ValueError query where_category where_member where_id
       annotation high_mark result_cache all_query];
  rewrite Hrange; cbn [bind];
  match goal with
  | |- context [non_empty_list ?l] => destruct (non_empty_list l)
  end; reflexivity.
Qed.

Lemma non_empty_list_In {A : Type} (l : list A) (x : A) :
  In x l -> non_empty_list l = true.
Proof. destruct l; [contradiction|reflexivity]. Qed.

(** X5: the counterpart of the failed lookup.  For an authenticated
    identity, when by_serverid is a literal of the id of a server of the
    store that the category and by_user parameters of the request also
    select, and qty is absent or empty, the handler returns the list of
    that one server.  The identifier is a primary key and no user is
    related to a server twice. *)
Theorem serverid_found_is_returned_alone (db : Store)
  (cache : option (list Row)) (request : Request) (uid : Z) (s : string)
  (n : Z) (srv : Server) :
  primary_key db -> unique_membership db ->
  user request = AuthenticatedUser uid ->
  get (query_params request) "by_serverid" = Some s ->
  Python.int s = Some n ->
  In srv db -> id srv = n ->
  selects request srv = true ->
  Python.truthy (get (query_params request) "qty") = false ->
  ServerListViewSet.list db cache request = (Ok [object_of request srv], cache).
Proof.
  intros Hpk Huniq Hu Hs Hint Hdb Hid Hsel Hqty.
  assert (Hrange : in_int64 n = true)
    by (rewrite <- Hid; now apply (store_id_in_range db)).
  assert (Hrow : has_row (filters_query request) srv = true).
  { rewrite has_row_selects_when; [assumption| |].
    - intros _. now exists uid.
    - intros _. exists n. now rewrite Hs. }
  destruct (proj2 (select_has_row db (filters_query request) srv)
              (conj Hdb Hrow)) as (r & Hr & _).
  pose proof (apply_filters_serverid db cache request uid s n Hu Hs Hint Hrange)
    as Hf.
  rewrite (non_empty_list_In _ r Hr) in Hf.
  pose proof (execute_after_filters _ _ _ _ Hf) as Hfetch.
  unfold ServerListViewSet.list, ServerListViewSet.apply_qty.
  rewrite Hf, Hqty. cbn [bind option_map].
  cbn [ServerListViewSet.getattr_queryset] in Hfetch. rewrite Hfetch.
  do 2 f_equal. unfold results; cbn [result_cache query].
  rewrite (serialize_visited db cache request _ Huniq Hf).
  assert (Hone : List.filter (has_row (filters_query request)) db = [srv]).
  { rewrite (filter_has_row_selects db cache request _ Hf).
    apply filter_unique; auto.
    - now apply primary_key_NoDup.
    - intros x Hx Hselx. apply (primary_key_unique db); auto.
      rewrite Hid. exact (selects_id request s n x Hs Hint Hselx). }
  pose proof (visited_permutes db (filters_query request)) as Hperm.
  rewrite Hone in Hperm.
  apply Permutation_sym, Permutation_length_1_inv in Hperm.
  now rewrite Hperm.
Qed.

Lemma serverid_found_is_returned_alone_witness :
  ServerListViewSet.list sample_db None
    (request_of (AuthenticatedUser 2)
       [("by_user", "true"); ("by_serverid", "1")])
  = (Ok [object_of (request_of (AuthenticatedUser 2)
                      [("by_user", "true"); ("by_serverid", "1")]) lobby],
     None).
Proof.
  apply (serverid_found_is_returned_alone sample_db None
           (request_of (AuthenticatedUser 2)
              [("by_user", "true"); ("by_serverid", "1")]) 2 "1" 1 lobby).
  - repeat constructor; simpl; intuition discriminate.
  - intros s [<-|[<-|[]]]; repeat constructor; simpl; intuition discriminate.
  - reflexivity.
  - reflexivity.
  - reflexivity.
  - left; reflexivity.
  - reflexivity.
  - reflexivity.
  - reflexivity.
Defined.

(* ===================================================================== *)
(** * The class attribute across requests *)
(* ===================================================================== *)

Lemma assigns_false (request : Request) :
  assigns request = false ->
  Python.eq_true (get (query_params request) "by_user") = false
  /\ Python.truthy (get (query_params request) "by_serverid") = false
  /\ Python.eq_true (get (query_params request) "with_num_members") = false.
Proof.
  unfold assigns. intros H.
  apply orb_false_iff in H as [H Hsid].
  apply orb_false_iff in H as [H Hcounts].
  apply orb_false_iff in H as [_ Hby]. auto.
Qed.

Lemma apply_filters_unassigned (db : Store) (cache : option (list Row))
  (request : Request) :
  assigns request = false ->
  ServerListViewSet.apply_filters db cache request = Ok None.
Proof.
  intros Ha. destruct (assigns_false _ Ha) as (Hby & Hsid & _).
  now rewrite (apply_filters_plain db cache request Hby Hsid), Ha.
Qed.

(** X6: what a request does to the class attribute.  The result cache
    of the class attribute is filled by a request that applies no filter
    and no qty, with all the rows of the store, the first time such a
    request is served; every other request, and every request that
    fails, leaves it as it was. *)
Theorem cache_after_request (db : Store) (cache : option (list Row))
  (request : Request) :
  snd (ServerListViewSet.list db cache request)
  = if negb (assigns request)
       && negb (Python.truthy (get (query_params request) "qty"))
    then Some (match cache with
               | Some rows => rows
               | None => select db all_query
               end)
    else cache.
Proof.
  unfold ServerListViewSet.list.
  destruct (assigns request) eqn:Ha; cbn [negb andb].
  - destruct (ServerListViewSet.apply_filters db cache request)
      as [self|e] eqn:Hf; [|reflexivity].
    rewrite (apply_filters_Ok _ _ _ _ Hf), Ha. cbn [bind].
    unfold ServerListViewSet.apply_qty.
    destruct (Python.truthy (get (query_params request) "qty")).
    + destruct (py_int _) as [n|e]; [|reflexivity]. cbn [bind].
      destruct (getitem_stop n _) as [[qs|rows]|e]; cbn [bind];
        try reflexivity.
      now destruct (fetch_all db qs) as [[rows qs']|e].
    + cbn [option_map].
      now destruct (fetch_all db _) as [[rows qs']|e].
  - rewrite (apply_filters_unassigned db cache request Ha). cbn [bind].
    unfold ServerListViewSet.apply_qty.
    destruct (Python.truthy (get (query_params request) "qty")).
    + destruct (py_int _) as [n|e]; [|reflexivity]. cbn [bind].
      destruct (getitem_stop n _) as [[qs|rows]|e]; cbn [bind];
        try reflexivity.
      now destruct (fetch_all db qs) as [[rows qs']|e].
    + cbn [option_map negb]. now destruct cache.
Qed.

(** A request without filters served from a filled cache. *)
Lemma list_from_cache (db : Store) (rows : list Row) (request : Request) :
  assigns request = false ->
  Python.truthy (get (query_params request) "qty") = false
  \/ (exists n, Python.int (ServerListViewSet.value
                              (get (query_params request) "qty")) = Some n
                /\ 0 <= n) ->
  fst (ServerListViewSet.list db (Some rows) request)
  = Ok (take_qty (get (query_params request) "qty")
          (ServerSerializer rows false)).
Proof.
  intros Ha Hqty.
  pose proof (apply_filters_unassigned db (Some rows) request Ha) as Hf.
  destruct (assigns_false _ Ha) as (_ & _ & Hcounts).
  unfold take_qty.
  destruct (Python.truthy (get (query_params request) "qty")) eqn:Hq.
  - destruct Hqty as [|(n & Hint & Hn)]; [discriminate|].
    assert (Hfrom : n <= max_int64 \/ from_cache (Some rows) request = true)
      by (right; unfold from_cache; now rewrite Ha).
    rewrite Hint,
      (list_with_qty db (Some rows) request None _ n (truthy_value _ Hq)
         Hint Hn Hfrom Hf).
    cbn [fst]. unfold results.
    cbn [ServerListViewSet.getattr_queryset ServerListViewSet.queryset
         result_cache].
    now rewrite Hcounts, serializer_firstn.
  - rewrite (list_without_qty db (Some rows) request _ Hq Hf).
    unfold results.
    cbn [ServerListViewSet.getattr_queryset ServerListViewSet.queryset
         result_cache].
    now rewrite Hcounts.
Qed.

(** X7: the first answer is served again.  After a request without
    filters and qty has been served on a fresh class attribute, every
    later request without filters is answered with the list returned
    then (cut by its own qty), whatever the store has become. *)
Theorem later_listings_repeat_the_first (db0 db1 : Store)
  (first later : Request) :
  assigns first = false ->
  Python.truthy (get (query_params first) "qty") = false ->
  assigns later = false ->
  Python.truthy (get (query_params later) "qty") = false
  \/ (exists n, Python.int (ServerListViewSet.value
                              (get (query_params later) "qty")) = Some n
                /\ 0 <= n) ->
  exists resp,
    fst (ServerListViewSet.list db0 None first) = Ok resp
    /\ fst (ServerListViewSet.list db1
              (snd (ServerListViewSet.list db0 None first)) later)
       = Ok (take_qty (get (query_params later) "qty") resp).
Proof.
  intros Ha Hq Ha' Hq'.
  pose proof (apply_filters_unassigned db0 None first Ha) as Hf.
  destruct (assigns_false _ Ha) as (_ & _ & Hcounts).
  exists (ServerSerializer (select db0 all_query) false). split.
  - rewrite (list_without_qty db0 None first _ Hq Hf). now rewrite Hcounts.
  - assert (Hsnd : snd (ServerListViewSet.list db0 None first)
                   = Some (select db0 all_query)).
    { unfold ServerListViewSet.list, ServerListViewSet.apply_qty.
      now rewrite Hf, Hq. }
    rewrite Hsnd. now apply list_from_cache.
Qed.

Lemma later_listings_repeat_the_first_witness :
  exists resp,
    fst (ServerListViewSet.list old_db None (request_of AnonymousUser []))
    = Ok resp
    /\ fst (ServerListViewSet.list sample_db
              (snd (ServerListViewSet.list old_db None
                      (request_of AnonymousUser [])))
              (request_of (AuthenticatedUser 2) [("qty", "5")]))
       = Ok (take_qty (Some "5") resp).
Proof.
  apply (later_listings_repeat_the_first old_db sample_db
           (request_of AnonymousUser [])
           (request_of (AuthenticatedUser 2) [("qty", "5")])).
  - reflexivity.
  - reflexivity.
  - reflexivity.
  - right. exists 5. split; [reflexivity|lia].
Defined.

(* ===================================================================== *)
(** * Further properties of the parameters *)
(* ===================================================================== *)

(** X8: a qty that fits 64 bits and is not smaller than the number of
    objects changes nothing: the request returns the list that it
    returns without qty. *)
Theorem large_qty_returns_everything (db : Store) (cache : option (list Row))
  (request : Request) (s : string) (n : Z) (full : Response) :
  get (query_params request) "qty" = Some s ->
  Python.int s = Some n ->
  n <= max_int64 ->
  fst (ServerListViewSet.list db cache (without_qty request)) = Ok full ->
  Z.of_nat (List.length full) <= n ->
  fst (ServerListViewSet.list db cache request) = Ok full.
Proof.
  intros Hqty Hint Hmax Hfull Hlen.
  destruct (ServerListViewSet.apply_filters db cache request) as [self|e] eqn:Hf.
  2:{ rewrite (list_filters_raise db cache (without_qty request) e) in Hfull;
        [discriminate|now rewrite apply_filters_without_qty]. }
  rewrite (list_without_qty db cache (without_qty request) self) in Hfull;
    [|apply without_qty_falsy|now rewrite apply_filters_without_qty].
  rewrite without_qty_counts in Hfull. injection Hfull as <-.
  assert (Hn : 0 <= n) by lia.
  rewrite (list_with_qty _ _ _ _ _ _ Hqty Hint Hn (or_introl Hmax) Hf).
  cbn [fst].
  rewrite serializer_firstn. f_equal. apply firstn_all2. lia.
Qed.

Lemma large_qty_returns_everything_witness :
  fst (ServerListViewSet.list sample_db None
         (request_of AnonymousUser [("qty", "10")]))
  = Ok (plain_listing sample_db None false).
Proof.
  apply (large_qty_returns_everything sample_db None
           (request_of AnonymousUser [("qty", "10")]) "10" 10).
  - reflexivity.
  - reflexivity.
  - discriminate.
  - reflexivity.
  - simpl. lia.
Defined.

(** X9: every server of a successful response to a request with a
    non-empty category has exactly that category name, whatever the
    other parameters and the cache of the class attribute are. *)
Theorem category_filter_is_sound (db : Store) (cache : option (list Row))
  (request : Request) (c : string) (resp : Response) :
  get (query_params request) "category" = Some c ->
  c <> EmptyString ->
  fst (ServerListViewSet.list db cache request) = Ok resp ->
  forall o, In o resp -> category_name (category (server o)) = c.
Proof.
  intros Hc Hne Hok o Ho.
  apply list_Ok_rows in Hok as (self & rows & Hf & -> & Hsub & _).
  apply apply_filters_Ok in Hf.
  assert (Hassigns : assigns request = true).
  { unfold assigns. now rewrite Hc, (truthy_Some c Hne). }
  rewrite Hassigns in Hf. subst self.
  unfold results in Hsub.
  cbn [ServerListViewSet.getattr_queryset result_cache query] in Hsub.
  apply In_serializer in Ho as (r & Hr & -> & _).
  apply Hsub, In_select in Hr as (_ & Hwhere & _).
  apply where_ok_filters_query in Hwhere.
  unfold category_matches in Hwhere.
  rewrite Hc, (truthy_Some c Hne) in Hwhere.
  now apply String.eqb_eq.
Qed.

Lemma category_filter_is_sound_witness :
  category_name
    (category (server {| server := studio; obj_num_members := None |}))
  = "music".
Proof.
  apply (category_filter_is_sound sample_db None
           (request_of AnonymousUser [("category", "music")]) "music"
           (plain_listing [studio] None false)).
  - reflexivity.
  - discriminate.
  - reflexivity.
  - left. reflexivity.
Defined.

(** X10: who asks does not matter unless by_user is true or by_serverid
    is not empty: such a request has the same outcome, and leaves the
    class attribute in the same state, for any two identities. *)
Theorem identity_is_ignored_without_by_user_and_serverid (db : Store)
  (cache : option (list Row)) (qd : QueryDict) (u u' : User) :
  Python.eq_true (get qd "by_user") = false ->
  Python.truthy (get qd "by_serverid") = false ->
  ServerListViewSet.list db cache {| query_params := qd; user := u |}
  = ServerListViewSet.list db cache {| query_params := qd; user := u' |}.
Proof.
  intros Hby Hsid.
  unfold ServerListViewSet.list.
  rewrite (apply_filters_plain db cache {| query_params := qd; user := u |}
             Hby Hsid),
          (apply_filters_plain db cache {| query_params := qd; user := u' |}
             Hby Hsid).
  unfold assigns, filters_query, ServerListViewSet.apply_qty;
    cbn [query_params user].
  now rewrite Hby.
Qed.

Lemma identity_is_ignored_without_by_user_and_serverid_witness :
  ServerListViewSet.list sample_db None
    {| query_params := [("by_user", "1"); ("category", "gaming")];
       user := AnonymousUser |}
  = ServerListViewSet.list sample_db None
      {| query_params := [("by_user", "1"); ("category", "gaming")];
         user := AuthenticatedUser 2 |}.
Proof.
  apply (identity_is_ignored_without_by_user_and_serverid sample_db None
           [("by_user", "1"); ("category", "gaming")]
           AnonymousUser (AuthenticatedUser 2)).
  - reflexivity.
  - reflexivity.
Defined.

(** Witnesses of the two lemmas on the member count. *)
Lemma num_members_without_by_user_witness :
  obj_num_members {| server := lobby; obj_num_members := Some 2 |}
  = Some (Z.of_nat
            (List.length
               (member (server {| server := lobby;
                                  obj_num_members := Some 2 |})))).
Proof.
  refine (num_members_without_by_user sample_db
            (request_of AnonymousUser [("with_num_members", "true")])
            (plain_listing sample_db None true) _ _ None _
            {| server := lobby; obj_num_members := Some 2 |} _).
  - reflexivity.
  - reflexivity.
  - reflexivity.
  - left. reflexivity.
Defined.

Lemma num_members_with_by_user_witness :
  obj_num_members {| server := studio; obj_num_members := Some 1 |} = Some 1.
Proof.
  refine (num_members_with_by_user sample_db
            (request_of (AuthenticatedUser 2)
               [("by_user", "true"); ("with_num_members", "true")])
            [ {| server := lobby; obj_num_members := Some 1 |};
              {| server := studio; obj_num_members := Some 1 |} ]
            _ _ _ None _
            {| server := studio; obj_num_members := Some 1 |} _).
  - intros s [<-|[<-|[]]]; repeat constructor; simpl; intuition discriminate.
  - reflexivity.
  - reflexivity.
  - reflexivity.
  - right. left. reflexivity.
Defined.

(* ===================================================================== *)
(** * What the handler reads of the query string *)
(* ===================================================================== *)

Lemma non_empty_eq (x y : option string) :
  non_empty x = non_empty y ->
  Python.truthy x = Python.truthy y
  /\ (Python.truthy x = true
      -> ServerListViewSet.value x = ServerListViewSet.value y).
Proof.
  unfold non_empty.
  destruct (Python.truthy x) eqn:Hx, (Python.truthy y) eqn:Hy; intros H.
  - split; [reflexivity|]. intros _. now rewrite H.
  - rewrite H in Hx. discriminate.
  - rewrite <- H in Hy. discriminate.
  - split; [reflexivity|discriminate].
Qed.

(** X13: the outcome depends on the query string only through the five
    parameters as the handler reads them.  Two query strings that agree
    on the non-empty category, by_serverid and qty and on whether
    by_user and with_num_members are the string true give the same
    outcome: an empty value, a by_user or with_num_members other than
    true, and any other key change nothing. *)
Theorem outcome_depends_on_effective_parameters (db : Store)
  (cache : option (list Row)) (qd qd' : QueryDict) (u : User) :
  effective qd = effective qd' ->
  ServerListViewSet.list db cache {| query_params := qd; user := u |}
  = ServerListViewSet.list db cache {| query_params := qd'; user := u |}.
Proof.
  unfold effective. intros H. injection H as Hc Hby Hcounts Hsid Hqty.
  apply non_empty_eq in Hc as [Hc Hcv].
  apply non_empty_eq in Hsid as [Hsid Hsidv].
  apply non_empty_eq in Hqty as [Hqty Hqtyv].
  unfold ServerListViewSet.list, ServerListViewSet.apply_filters,
    ServerListViewSet.apply_qty; cbn [query_params user].
  rewrite <- Hc, <- Hby, <- Hcounts, <- Hsid, <- Hqty.
  destruct (Python.truthy (get qd "category"));
    [rewrite <- (Hcv eq_refl)|];
    (destruct (Python.truthy (get qd "by_serverid"));
     [rewrite <- (Hsidv eq_refl)|]);
    (destruct (Python.truthy (get qd "qty"));
     [rewrite <- (Hqtyv eq_refl)|]);
    reflexivity.
Qed.

Lemma outcome_depends_on_effective_parameters_witness :
  ServerListViewSet.list sample_db None
    {| query_params := [("with_num_members", "True"); ("category", "");
                        ("page", "3"); ("qty", "1")];
       user := AnonymousUser |}
  = ServerListViewSet.list sample_db None
      {| query_params := [("qty", "1")]; user := AnonymousUser |}.
Proof.
  apply (outcome_depends_on_effective_parameters sample_db None
           [("with_num_members", "True"); ("category", "");
            ("page", "3"); ("qty", "1")]
           [("qty", "1")] AnonymousUser).
  reflexivity.
Defined.

(* ===================================================================== *)
(** * When the handler succeeds *)
(* ===================================================================== *)

(** X14: when the handler succeeds.  A request is answered with a list
    exactly when the identity is authenticated if by_user is true or
    by_serverid is not empty; some server of the store is selected by
    the category, by_user and by_serverid parameters if by_serverid is
    not empty; and qty, if not empty, is a literal of an integer that
    is not negative and that fits 64 bits, unless no filter applies and
    the class attribute has cached its rows, which any such bound
    slices. *)
Theorem success_iff (db : Store) (cache : option (list Row))
  (request : Request) :
  (exists resp, fst (ServerListViewSet.list db cache request) = Ok resp)
  <-> (Python.eq_true (get (query_params request) "by_user") = true
       \/ Python.truthy (get (query_params request) "by_serverid") = true ->
       is_authenticated (user request) = true)
      /\ (Python.truthy (get (query_params request) "by_serverid") = true ->
          exists srv, In srv db /\ selects request srv = true)
      /\ qty_served cache request.
Proof.
  split.
  - intros (resp & Hok).
    apply list_Ok_exact in Hok as (self & Hf & Hserved & _).
    assert (Hauth :
      Python.eq_true (get (query_params request) "by_user") = true
      \/ Python.truthy (get (query_params request) "by_serverid") = true ->
      is_authenticated (user request) = true).
    { intros Hp. destruct (is_authenticated (user request)) eqn:Ha;
        [reflexivity|].
      rewrite (apply_filters_anonymous db cache request Ha Hp) in Hf.
      discriminate. }
    split; [exact Hauth|]. split; [|exact Hserved].
    intros Hsid.
    destruct (apply_filters_Ok_serverid _ _ _ _ Hf Hsid) as (n & Hint & Hrange).
    destruct (user request) as [|uid] eqn:Hu;
      [specialize (Hauth (or_intror Hsid)); discriminate|].
    pose proof (apply_filters_serverid db cache request uid _ n Hu
                  (truthy_value _ Hsid) Hint Hrange) as Hf'.
    rewrite Hf in Hf'.
    destruct (select db (filters_query request)) as [|r rows] eqn:Hrows;
      [discriminate|].
    assert (Hr : exists r', In r' (select db (filters_query request))
                            /\ instance r' = instance r).
    { exists r. rewrite Hrows. split; [now left|reflexivity]. }
    apply select_has_row in Hr as [Hdb Hrow].
    exists (instance r). split; [assumption|].
    now rewrite <- (has_row_selects _ _ _ _ (instance r) Hf).
  - intros (Hauth & Hsel & Hqty).
    assert (Hf : exists self,
               ServerListViewSet.apply_filters db cache request = Ok self).
    { destruct (Python.truthy (get (query_params request) "by_serverid"))
        eqn:Hsid.
      - destruct (Hsel eq_refl) as (srv & Hdb & Hsrv).
        destruct (user request) as [|uid] eqn:Hu;
          [specialize (Hauth (or_intror eq_refl)); discriminate|].
        assert (Hint : exists n,
                  Python.int (ServerListViewSet.value
                                (get (query_params request) "by_serverid"))
                  = Some n /\ id srv = n).
        { unfold selects in Hsrv. apply andb_true_iff in Hsrv as [_ H].
          rewrite Hsid in H.
          destruct (Python.int
                      (ServerListViewSet.value
                         (get (query_params request) "by_serverid")))
            as [n|]; [|discriminate].
          exists n. split; [reflexivity|]. now apply Z.eqb_eq. }
        destruct Hint as (n & Hint & Hid).
        assert (Hrange : in_int64 n = true)
          by (rewrite <- Hid; now apply (store_id_in_range db)).
        rewrite (apply_filters_serverid db cache request uid _ n Hu
                   (truthy_value _ Hsid) Hint Hrange).
        assert (Hrow : has_row (filters_query request) srv = true).
        { rewrite has_row_selects_when; [assumption| |].
          - intros _. now exists uid.
          - intros _. now exists n. }
        destruct (proj2 (select_has_row db (filters_query request) srv)
                    (conj Hdb Hrow)) as (r & Hr & _).
        rewrite (non_empty_list_In _ r Hr). eexists. reflexivity.
      - eexists. apply apply_filters_no_serverid; [exact Hsid|].
        intros Hby. apply Hauth. now left. }
    destruct Hf as (self & Hf).
    destruct (Python.truthy (get (query_params request) "qty")) eqn:Hq.
    + destruct (Hqty Hq) as (n & Hint & Hn & Hbound).
      eexists.
      now rewrite (list_with_qty _ _ _ _ _ n (truthy_value _ Hq) Hint Hn
                     Hbound Hf).
    + eexists. exact (list_without_qty _ _ _ _ Hq Hf).
Qed.
